(** * Commit engine of the Alberti Protocol SDK (src/index.js)

    A shallow embedding of [createCommit], [verifyCommit], [verifyObject],
    [checkdatastructure] and [difficultyverify] from src/index.js, over a
    small model of the JavaScript values these functions receive, with the
    exceptions they may raise made explicit in a [result] type. Also
    embedded: [encodeMessage] and [decodeMessage] (with [JSON.stringify]),
    the [verifyCommit] of src/unnamed/part_002, and the commit functions of
    the elliptic-curve version in src/unnamed/part_003.

    The crypto primitives of eth-crypto (keccak256, sign, recoverPublicKey,
    publicKeyByPrivateKey, encryption), of crypto-js and of elliptic are
    opaque: they are section variables, and the laws used about them are
    stated as hypotheses where needed.

    Scope of the value model: JSON-like values (no functions, no symbols,
    no prototypes of their own); numbers are integers; strings are byte
    strings, so [String.length] is the JS length for ASCII content. *)

From Stdlib Require Import String Ascii List ZArith NArith Bool Lia Permutation.
Import ListNotations.

Local Open Scope string_scope.
Local Open Scope Z_scope.

Module JS.

Local Set Warnings "-register-all".

(** ** Values, exceptions *)

Inductive jsval : Type :=
| JUndef
| JNull
| JBool (b : bool)
| JNum (z : Z)
| JStr (s : string)
| JArr (l : list jsval)
| JObj (kvs : list (string * jsval)).

Inductive js_error : Type :=
| TypeError
| RangeError
| Error (msg : string).

(** Normal completion or a thrown exception. *)
Inductive result (A : Type) : Type :=
| Ok (a : A)
| Throw (e : js_error).
Arguments Ok {A} a.
Arguments Throw {A} e.

Definition bind {A B} (r : result A) (k : A -> result B) : result B :=
  match r with
  | Ok a => k a
  | Throw e => Throw e
  end.

Notation "'let*' x ':=' r 'in' k" := (bind r (fun x => k))
  (at level 200, x name, r at level 100, k at level 200).

(** [try { body } catch (error) { handler }] *)
Definition js_try {A} (body : result A) (handler : js_error -> result A) : result A :=
  match body with
  | Ok a => Ok a
  | Throw e => handler e
  end.

(** ** Decimal rendering of numbers and array indices *)

Fixpoint string_of_uint (d : Decimal.uint) : string :=
  match d with
  | Decimal.Nil => ""
  | Decimal.D0 d => String "0" (string_of_uint d)
  | Decimal.D1 d => String "1" (string_of_uint d)
  | Decimal.D2 d => String "2" (string_of_uint d)
  | Decimal.D3 d => String "3" (string_of_uint d)
  | Decimal.D4 d => String "4" (string_of_uint d)
  | Decimal.D5 d => String "5" (string_of_uint d)
  | Decimal.D6 d => String "6" (string_of_uint d)
  | Decimal.D7 d => String "7" (string_of_uint d)
  | Decimal.D8 d => String "8" (string_of_uint d)
  | Decimal.D9 d => String "9" (string_of_uint d)
  end.

Definition string_of_N (n : N) : string := string_of_uint (N.to_uint n).

(** [Number.prototype.toString] on integers. *)
Definition string_of_Z (z : Z) : string :=
  match z with
  | Zneg p => "-" ++ string_of_N (Npos p)
  | _ => string_of_N (Z.to_N z)
  end.

(** The own index keys ["0"; "1"; ...] of an array or string of length [n]. *)
Definition index_keys (n : nat) : list string :=
  map (fun i => string_of_N (N.of_nat i)) (seq 0 n).

Fixpoint index_of_key_from (k : string) (i n : nat) : option nat :=
  match n with
  | O => None
  | S n' => if String.eqb k (string_of_N (N.of_nat i)) then Some i
            else index_of_key_from k (S i) n'
  end.

Definition index_of_key (k : string) (n : nat) : option nat :=
  index_of_key_from k 0 n.

(** ** Objects: an association list denotes the object whose value at a
    key is its first binding; [Object.keys] lists keys in order of first
    occurrence. *)

Fixpoint obj_lookup (k : string) (kvs : list (string * jsval)) : option jsval :=
  match kvs with
  | [] => None
  | (k', v) :: r => if String.eqb k k' then Some v else obj_lookup k r
  end.

Definition obj_keys (kvs : list (string * jsval)) : list string :=
  fold_left (fun acc k => if existsb (String.eqb k) acc then acc else app acc [k])
            (map fst kvs) [].

(** [Object.keys(v)] *)
Definition js_object_keys (v : jsval) : result (list string) :=
  match v with
  | JUndef | JNull => Throw TypeError
  | JBool _ | JNum _ => Ok []
  | JStr s => Ok (index_keys (String.length s))
  | JArr l => Ok (index_keys (List.length l))
  | JObj kvs => Ok (obj_keys kvs)
  end.

(** [v.hasOwnProperty(k)]: an own property named [hasOwnProperty] shadows
    the method and, not being a function, makes the call throw. *)
Definition has_own (v : jsval) (k : string) : result bool :=
  match v with
  | JUndef | JNull => Throw TypeError
  | JBool _ | JNum _ => Ok false
  | JStr s => Ok (String.eqb k "length" || existsb (String.eqb k) (index_keys (String.length s)))
  | JArr l => Ok (String.eqb k "length" || existsb (String.eqb k) (index_keys (List.length l)))
  | JObj kvs =>
      match obj_lookup "hasOwnProperty" kvs with
      | Some _ => Throw TypeError
      | None => Ok (existsb (String.eqb k) (obj_keys kvs))
      end
  end.

(** [v.k] for a data property [k] (never one of the built-in methods). *)
Definition get (v : jsval) (k : string) : result jsval :=
  match v with
  | JUndef | JNull => Throw TypeError
  | JBool _ | JNum _ => Ok JUndef
  | JStr s =>
      if String.eqb k "length" then Ok (JNum (Z.of_nat (String.length s)))
      else match index_of_key k (String.length s) with
           | Some i => Ok (match String.get i s with
                           | Some c => JStr (String c EmptyString)
                           | None => JUndef
                           end)
           | None => Ok JUndef
           end
  | JArr l =>
      if String.eqb k "length" then Ok (JNum (Z.of_nat (List.length l)))
      else match index_of_key k (List.length l) with
           | Some i => Ok (nth i l JUndef)
           | None => Ok JUndef
           end
  | JObj kvs =>
      match obj_lookup k kvs with
      | Some x => Ok x
      | None => Ok JUndef
      end
  end.

(** [ToString(v)], as used by template literals: plain objects go through
    [Object.prototype.toString]; an own [toString] property, not being
    callable, leaves [ToPrimitive] without a method and throws. Arrays use
    [join(",")], rendering [undefined] and [null] elements as "". *)
Fixpoint to_str (v : jsval) : result string :=
  match v with
  | JUndef => Ok "undefined"
  | JNull => Ok "null"
  | JBool true => Ok "true"
  | JBool false => Ok "false"
  | JNum z => Ok (string_of_Z z)
  | JStr s => Ok s
  | JArr l =>
      let fix elems (l : list jsval) : result (list string) :=
        match l with
        | [] => Ok []
        | x :: r =>
            let* s := (match x with
                       | JUndef | JNull => Ok ""
                       | _ => to_str x
                       end) in
            let* ss := elems r in
            Ok (s :: ss)
        end in
      let* ss := elems l in
      Ok (String.concat "," ss)
  | JObj kvs =>
      match obj_lookup "toString" kvs with
      | Some _ => Throw TypeError
      | None => Ok "[object Object]"
      end
  end.

Definition js_truthy (v : jsval) : bool :=
  match v with
  | JUndef | JNull => false
  | JBool b => b
  | JNum z => negb (Z.eqb z 0)
  | JStr s => negb (String.eqb s "")
  | JArr _ | JObj _ => true
  end.

(** [s === v] for a string [s]. *)
Definition str_strict_eq (s : string) (v : jsval) : bool :=
  match v with
  | JStr s' => String.eqb s s'
  | _ => false
  end.

(** ** [ToNumber] of a string, to the extent of its sign: [str_num_pos s]
    holds iff [Number(s) > 0]. ASCII white space is trimmed; decimal
    literals (with fraction and exponent), [Infinity] and the 0x/0o/0b
    integer forms are recognised, anything else is NaN. Literals are taken
    at their exact value: rounding of tiny literals to 0 is not modelled. *)

Fixpoint span (p : ascii -> bool) (l : list ascii) : list ascii * list ascii :=
  match l with
  | [] => ([], [])
  | c :: r => if p c then let (a, b) := span p r in (c :: a, b) else ([], l)
  end.

Definition is_ws (c : ascii) : bool :=
  let n := nat_of_ascii c in
  (Nat.eqb n 9 || Nat.eqb n 10 || Nat.eqb n 11 || Nat.eqb n 12 || Nat.eqb n 13
   || Nat.eqb n 32)%bool.

Definition in_range (lo hi c : ascii) : bool :=
  (Nat.leb (nat_of_ascii lo) (nat_of_ascii c) && Nat.leb (nat_of_ascii c) (nat_of_ascii hi))%bool.

Definition is_digit (c : ascii) : bool := in_range "0" "9" c.
Definition is_hex_digit (c : ascii) : bool :=
  (is_digit c || in_range "a" "f" c || in_range "A" "F" c)%bool.
Definition is_nonzero (c : ascii) : bool := negb (Ascii.eqb c "0").

Definition is_nil {A} (l : list A) : bool :=
  match l with [] => true | _ => false end.

Definition trim (l : list ascii) : list ascii :=
  rev (snd (span is_ws (rev (snd (span is_ws l))))).

(** [Some b]: a valid StrUnsignedDecimalLiteral whose value is positive iff [b]. *)
Definition unsigned_decimal_pos (l : list ascii) : option bool :=
  if String.eqb (string_of_list_ascii l) "Infinity" then Some true else
  let (d1, r1) := span is_digit l in
  let '(d2, r2) := match r1 with
                   | "."%char :: r => span is_digit r
                   | _ => ([], r1)
                   end in
  let exp_ok :=
    match r2 with
    | [] => true
    | e :: r =>
        if (Ascii.eqb e "e" || Ascii.eqb e "E")%bool then
          let r' := match r with
                    | "+"%char :: r' | "-"%char :: r' => r'
                    | _ => r
                    end in
          let (d3, r3) := span is_digit r' in
          (negb (is_nil d3) && is_nil r3)%bool
        else false
    end in
  if (is_nil (app d1 d2) || negb exp_ok)%bool then None
  else Some (List.existsb is_nonzero (app d1 d2)).

Definition non_decimal_pos (p : ascii -> bool) (l : list ascii) : option bool :=
  match l with
  | [] => None
  | _ => if List.forallb p l then Some (List.existsb is_nonzero l) else None
  end.

Definition str_num_pos (s : string) : bool :=
  match trim (list_ascii_of_string s) with
  | [] => false
  | "0"%char :: x :: r =>
      let res :=
        if (Ascii.eqb x "x" || Ascii.eqb x "X")%bool then non_decimal_pos is_hex_digit r
        else if (Ascii.eqb x "o" || Ascii.eqb x "O")%bool then non_decimal_pos (in_range "0" "7") r
        else if (Ascii.eqb x "b" || Ascii.eqb x "B")%bool then non_decimal_pos (in_range "0" "1") r
        else unsigned_decimal_pos ("0"%char :: x :: r) in
      match res with Some b => b | None => false end
  | "+"%char :: r => match unsigned_decimal_pos r with Some b => b | None => false end
  | "-"%char :: _ => false
  | l => match unsigned_decimal_pos l with Some b => b | None => false end
  end.

(** [v > 0]: [ToPrimitive] with hint number (the inherited [valueOf] of an
    array or object returns the object itself, so [toString] decides), then
    [ToNumber]. *)
Definition js_gt0 (v : jsval) : result bool :=
  match v with
  | JNum z => Ok (0 <? z)
  | JUndef | JNull => Ok false
  | JBool b => Ok b
  | JStr s => Ok (str_num_pos s)
  | JArr _ | JObj _ => let* s := to_str v in Ok (str_num_pos s)
  end.

(** ** Array iteration *)

(** [arr.forEach(cb)] with the callback's closure state threaded through;
    the callback's return value is discarded by [forEach]. *)
Fixpoint forEach_list {S} (cb : S -> jsval -> result S) (st : S) (l : list jsval) : result S :=
  match l with
  | [] => Ok st
  | x :: r => let* st' := cb st x in forEach_list cb st' r
  end.

Definition js_forEach {S} (cb : S -> jsval -> result S) (st : S) (v : jsval) : result S :=
  match v with
  | JArr l => forEach_list cb st l
  | _ => Throw TypeError (* undefined, null: no property; others: not a function *)
  end.

(** [arr.every(p)]: stops at the first element failing [p]. *)
Fixpoint every_list (p : jsval -> result bool) (l : list jsval) : result bool :=
  match l with
  | [] => Ok true
  | x :: r => let* b := p x in if b then every_list p r else Ok false
  end.

Definition js_every (p : jsval -> result bool) (v : jsval) : result bool :=
  match v with
  | JArr l => every_list p l
  | _ => Throw TypeError
  end.

(** [v.hasOwnProperty(k1) && v.hasOwnProperty(k2) && ...] *)
Fixpoint all_own (v : jsval) (ks : list string) : result bool :=
  match ks with
  | [] => Ok true
  | k :: ks' => let* b := has_own v k in if b then all_own v ks' else Ok false
  end.

(** [/^[a-zA-Z0-9]*$/] *)
Definition alnum_only (s : string) : bool :=
  List.forallb (fun c => (in_range "a" "z" c || in_range "A" "Z" c || is_digit c)%bool)
               (list_ascii_of_string s).

End JS.

(** * Schema validation *)

Module Index.
Import JS.

(** The hashtag callback of [checkdatastructure]: its [return false] is a
    return from the callback, which [forEach] discards. *)
Definition hashtag_cb (element : jsval) : result (option bool) :=
  match element with
  | JStr s =>
      if Nat.ltb 32 (String.length s) then Ok (Some false)
      else if negb (alnum_only s) then Ok (Some false)
      else Ok None
  | _ => Ok (Some false) (* typeof element !== "string" *)
  end.

(** The attachment callback: it updates the closure variables
    [allgood] and [allgoodx]. *)
Definition attachment_cb (st : bool * bool) (element : jsval) : result (bool * bool) :=
  let '(allgood, allgoodx) := st in
  let* t := has_own element "type" in
  let allgood := if t then true else allgood in
  let* c := has_own element "cid" in
  let allgoodx := if c then negb allgoodx else allgoodx in
  let* u := has_own element "url" in
  let allgoodx := if u then negb allgoodx else allgoodx in
  Ok (allgood, allgoodx).

Definition post_branch (data : jsval) : result bool :=
  let* p := all_own data ["parent"; "content"; "hashtags"; "attachments"] in
  if negb p then Ok false else
  let* hashtags := get data "hashtags" in
  let* hlen := get hashtags "length" in
  let* hpos := js_gt0 hlen in
  let* _ := (if hpos then
               js_forEach (fun st el => let* _ := hashtag_cb el in Ok st) tt hashtags
             else Ok tt) in
  let* attachments := get data "attachments" in
  let* alen := get attachments "length" in
  let* apos := js_gt0 alen in
  if apos then
    let* st := js_forEach attachment_cb (false, false) attachments in
    let '(allgood, allgoodx) := st in
    if (negb allgood || negb allgoodx)%bool then Ok false else Ok true
  else Ok true.

Definition meta_branch (data : jsval) : result bool :=
  let* p := all_own data ["followed"; "hashtags"; "bookmarks"; "name"; "about";
                          "image"; "website"] in
  if negb p then Ok false else
  let* hashTags := get data "hashTags" in
  let* _ := js_forEach (fun st el => let* _ := hashtag_cb el in Ok st) tt hashTags in
  Ok true.

Definition message_branch (data : jsval) : result bool :=
  all_own data ["receiver"; "message"].

(** [postTemplate] (src/index.js 134-146). *)
Definition postTemplate (content hashtags attachments parentID : jsval) : jsval :=
  JObj [("parent", parentID); ("content", content); ("hashtags", hashtags);
        ("attachments", attachments)].

(** [metaTemplate] (src/index.js 159-177). *)
Definition metaTemplate (name about image website followed hashtags bookmarks : jsval)
  : jsval :=
  JObj [("followed", followed); ("hashtags", hashtags); ("bookmarks", bookmarks);
        ("name", name); ("about", about); ("image", image); ("website", website)].

(** [checkdatastructure] (src/index.js 277-368). Each test
    [if ((type = "post"))] assigns the string to [type] and tests the
    truthiness of the assigned value. *)
Definition checkdatastructure (data type : jsval) : result bool :=
  let type := JStr "post" in
  if js_truthy type then post_branch data else
  let type := JStr "meta" in
  if js_truthy type then meta_branch data else
  let type := JStr "message" in
  if js_truthy type then message_branch data else
  Ok false.

End Index.

(** [checkDataStructure] of the elliptic-curve version of the module
    (src/unnamed/part_003, 242-289), which compares the type tag with
    [===] and validates elements with [every]. *)
Module Part003.
Import JS.

Definition hashtag_ok (element : jsval) : result bool :=
  match element with
  | JStr s => Ok (Nat.leb (String.length s) 32 && alnum_only s)%bool
  | _ => Ok false
  end.

Definition attachment_ok (element : jsval) : result bool :=
  let* t := has_own element "type" in
  if negb t then Ok false else
  let* ty := get element "type" in
  if negb (str_strict_eq "image" ty || str_strict_eq "video" ty || str_strict_eq "others" ty)%bool
  then Ok false else
  let* c := has_own element "cid" in
  if c then Ok true else has_own element "url".

Definition checkDataStructure (data type : jsval) : result bool :=
  if str_strict_eq "post" type then
    let* p := all_own data ["parent"; "content"; "hashtags"; "attachments"] in
    if negb p then Ok false else
    let* hashtags := get data "hashtags" in
    let* h := js_every hashtag_ok hashtags in
    if negb h then Ok false else
    let* attachments := get data "attachments" in
    js_every attachment_ok attachments
  else if str_strict_eq "meta" type then
    let* p := all_own data ["followed"; "hashtags"; "bookmarks"; "name"; "about";
                            "image"; "website"] in
    if negb p then Ok false else
    let* hashtags := get data "hashtags" in
    js_every hashtag_ok hashtags
  else if str_strict_eq "message" type then
    all_own data ["receiver"; "message"]
  else Ok false.

End Part003.

(** * Commits *)

Module Commit.
Import JS.

(** [s.repeat(n)]: a negative count is a RangeError. *)
Fixpoint repeat_str (s : string) (n : nat) : string :=
  match n with
  | O => ""
  | S n' => s ++ repeat_str s n'
  end.

Definition js_repeat (s : string) (n : Z) : result string :=
  if n <? 0 then Throw RangeError else Ok (repeat_str s (Z.to_nat n)).

(** [difficultyverify] (src/index.js 36-38, src/unnamed/part_002 3-5):
    [hash.startsWith("0x" + "0".repeat(difficulty))]. *)
Definition difficultyverify (difficulty : Z) (hash : string) : result bool :=
  let* zeros := js_repeat "0" difficulty in
  Ok (String.prefix ("0x" ++ zeros) hash).

(** The object literal [{ commitAt, data, publicKey, signature, type, nonce }]. *)
Definition commit_obj (commitAt data publicKey signature type nonce : jsval) : jsval :=
  JObj [("commitAt", commitAt); ("data", data); ("publicKey", publicKey);
        ("signature", signature); ("type", type); ("nonce", nonce)].

(** The template literal [`${data}${commitAt}${nonce}`]. *)
Definition hash_string (data commitAt nonce : jsval) : result string :=
  let* a := to_str data in
  let* b := to_str commitAt in
  let* c := to_str nonce in
  Ok (a ++ b ++ c).

Section Crypto.

(** eth-crypto: [hash.keccak256] returns "0x" followed by the hex digest,
    whose hex part is [keccak256_hex]; [sign], [recoverPublicKey] and
    [publicKeyByPrivateKey] may throw. *)
Variable keccak256_hex : string -> string.
Variable eth_sign : string -> string -> result string.
Variable eth_recoverPublicKey : jsval -> string -> result string.
Variable eth_publicKeyByPrivateKey : string -> result string.

Definition hashMessage (message : string) : string := "0x" ++ keccak256_hex message.

Definition signMessage (privateKey message : string) : result string :=
  eth_sign privateKey (hashMessage message).

Definition recoverPublicKey (signature : jsval) (message : string) : result string :=
  eth_recoverPublicKey signature (hashMessage message).

(** One round of the [do ... while] loop of [createCommit] at [nonce]:
    the digest of [`${data}${commitAt}${nonce}`] and whether it meets the
    difficulty. *)
Definition nonce_attempt (data : jsval) (commitAt : string) (difficulty nonce : Z)
  : result (bool * string) :=
  let* hashString := hash_string data (JStr commitAt) (JNum nonce) in
  let messageHash := hashMessage hashString in
  let* ok := difficultyverify difficulty messageHash in
  Ok (ok, messageHash).

(** The unbounded mining loop of [createCommit] (src/index.js 190-201),
    run for at most [fuel] rounds; [None] when the rounds run out. The
    loop's second condition [messageHash === undefined] never holds:
    [hashMessage] returns a string. *)
Fixpoint mine (fuel : nat) (data : jsval) (commitAt : string) (difficulty nonce : Z)
  : option (result (Z * string)) :=
  match fuel with
  | O => None
  | S fuel' =>
      let nonce := nonce + 1 in
      match nonce_attempt data commitAt difficulty nonce with
      | Throw e => Some (Throw e)
      | Ok (ok, messageHash) =>
          if negb ok then mine fuel' data commitAt difficulty nonce
          else Some (Ok (nonce, messageHash))
      end
  end.

(** [createCommit] (src/index.js 187-211); [now] is the value of
    [new Date().toISOString()]. Every exception is caught and replaced by
    [Error("Failed to create commit.")]. *)
Definition createCommit (fuel : nat) (privateKey : string) (data type : jsval)
  (difficulty : Z) (now : string) : option (result jsval) :=
  let failed := Throw (Error "Failed to create commit.") in
  match mine fuel data now difficulty 0 with
  | None => None
  | Some (Throw _) => Some failed
  | Some (Ok (nonce, messageHash)) =>
      Some (match signMessage privateKey messageHash with
            | Throw _ => failed
            | Ok signature =>
                match eth_publicKeyByPrivateKey privateKey with
                | Throw _ => failed
                | Ok publicKey =>
                    Ok (commit_obj (JStr now) data (JStr publicKey) (JStr signature)
                                   type (JNum nonce))
                end
            end)
  end.

End Crypto.

(** [verifyObject] (src/index.js 247-268). *)
Definition verifyObject (dataObject : jsval) : result bool :=
  let* keys := js_object_keys dataObject in
  if negb (Nat.eqb (List.length keys) 6) then Ok false else
  let* data := get dataObject "data" in
  let* type := get dataObject "type" in
  let* c := Index.checkdatastructure data type in
  if negb c then Ok false else
  all_own dataObject ["commitAt"; "data"; "publicKey"; "signature"; "type"; "nonce"].

Section Verify.

Variable keccak256_hex : string -> string.
Variable eth_recoverPublicKey : jsval -> string -> result string.

(** [verifyCommit] (src/index.js 219-239): [verifyObject] runs before the
    [try]; the rest of the body runs inside it and any exception there
    yields [false]. *)
Definition verifyCommit (commit : jsval) (difficulty : Z) : result bool :=
  let* vo := verifyObject commit in
  if negb vo then Ok false else
  js_try
    (let* data := get commit "data" in
     let* commitAt := get commit "commitAt" in
     let* nonce := get commit "nonce" in
     let* hashString := hash_string data commitAt nonce in
     let hashedData := hashMessage keccak256_hex hashString in
     let* ok := difficultyverify difficulty hashedData in
     if negb ok then Ok false else
     let* signature := get commit "signature" in
     let* signer := recoverPublicKey keccak256_hex eth_recoverPublicKey signature hashedData in
     let* publicKey := get commit "publicKey" in
     Ok (str_strict_eq signer publicKey))
    (fun _ => Ok false).

End Verify.

End Commit.

(** [verifyCommit] of src/unnamed/part_002 (123-139): no [verifyObject],
    the whole body inside the [try]. Its [createCommit] (97-121) is the text
    of the one in src/index.js, embedded by [Commit.createCommit]. *)
Module Part002.
Import JS Commit.

Section Verify.

Variable keccak256_hex : string -> string.
Variable eth_recoverPublicKey : jsval -> string -> result string.

Definition verifyCommit (commit : jsval) (difficulty : Z) : result bool :=
  js_try
    (let* data := get commit "data" in
     let* commitAt := get commit "commitAt" in
     let* nonce := get commit "nonce" in
     let* hashString := hash_string data commitAt nonce in
     let hashedData := hashMessage keccak256_hex hashString in
     let* ok := difficultyverify difficulty hashedData in
     if negb ok then Ok false else
     let* signature := get commit "signature" in
     let* signer := recoverPublicKey keccak256_hex eth_recoverPublicKey signature hashedData in
     let* publicKey := get commit "publicKey" in
     Ok (str_strict_eq signer publicKey))
    (fun _ => Ok false).

End Verify.

End Part002.

(** * Private messages *)

Module Messages.
Import JS Commit.

(** ** [JSON.stringify] *)

Definition dquote : ascii := ascii_of_nat 34.
Definition bslash : ascii := ascii_of_nat 92.

Definition hex_digit (n : nat) : ascii :=
  ascii_of_nat (if Nat.ltb n 10 then 48 + n else 87 + n).

(** The escape of one character in a JSON string literal. *)
Definition json_escape_char (c : ascii) : list ascii :=
  let n := nat_of_ascii c in
  if Nat.eqb n 34 then [bslash; dquote]
  else if Nat.eqb n 92 then [bslash; bslash]
  else if Nat.eqb n 8 then [bslash; "b"%char]
  else if Nat.eqb n 12 then [bslash; "f"%char]
  else if Nat.eqb n 10 then [bslash; "n"%char]
  else if Nat.eqb n 13 then [bslash; "r"%char]
  else if Nat.eqb n 9 then [bslash; "t"%char]
  else if Nat.ltb n 32 then
    [bslash; "u"%char; "0"%char; "0"%char; hex_digit (n / 16); hex_digit (n mod 16)]
  else [c].

Definition json_quote (s : string) : string :=
  string_of_list_ascii
    (dquote :: app (flat_map json_escape_char (list_ascii_of_string s)) [dquote]).

(** [JSON.stringify(v)]; [None] is [undefined]. Properties whose value
    is [undefined] are left out of objects and written [null] in arrays. *)
Fixpoint json_stringify (v : jsval) : option string :=
  match v with
  | JUndef => None
  | JNull => Some "null"
  | JBool true => Some "true"
  | JBool false => Some "false"
  | JNum z => Some (string_of_Z z)
  | JStr s => Some (json_quote s)
  | JArr l =>
      let fix elems (l : list jsval) : list string :=
        match l with
        | [] => []
        | x :: r => match json_stringify x with
                    | Some s => s
                    | None => "null"
                    end :: elems r
        end in
      Some ("[" ++ String.concat "," (elems l) ++ "]")
  | JObj kvs =>
      let fix props (seen : list string) (kvs : list (string * jsval)) : list string :=
        match kvs with
        | [] => []
        | (k, x) :: r =>
            if existsb (String.eqb k) seen then props seen r
            else app (match json_stringify x with
                      | Some s => [json_quote k ++ ":" ++ s]
                      | None => []
                      end) (props (k :: seen) r)
        end in
      Some ("{" ++ String.concat "," (props [] kvs) ++ "}")
  end.

(** The object [{ message, signature }] that [encodeMessage] encrypts. *)
Definition signed_payload (message signature : string) : jsval :=
  JObj [("message", JStr message); ("signature", JStr signature)].

Section Cipher.

(** eth-crypto: keccak256 of a string ([keccak256_hex], as before) and of
    any other argument ([keccak256_value]); signing, recovery, key
    derivation; asymmetric encryption and the string form of its result;
    and [JSON.parse]. Promises are modelled by their settled outcome. *)
Variable keccak256_hex : string -> string.
Variable keccak256_value : jsval -> result string.
Variable eth_sign : string -> string -> result string.
Variable eth_recoverPublicKey : jsval -> string -> result string.
Variable eth_publicKeyByPrivateKey : string -> result string.
Variable eth_encryptWithPublicKey : string -> string -> result jsval.
Variable eth_cipher_stringify : jsval -> result string.
Variable eth_cipher_parse : string -> result jsval.
Variable eth_decryptWithPrivateKey : string -> jsval -> result string.
Variable json_parse : string -> result jsval.

(** [hashMessage(message)] on a value read back from JSON. *)
Definition hashMessage_value (message : jsval) : result string :=
  match message with
  | JStr s => Ok (hashMessage keccak256_hex s)
  | _ => keccak256_value message
  end.

(** [encodeMessage] (src/index.js 76-93). *)
Definition encodeMessage (message senderPrivateKey receiverPublicKey : string)
  : result jsval :=
  js_try
    (let* signature := signMessage keccak256_hex eth_sign senderPrivateKey message in
     let* plaintext := match json_stringify (signed_payload message signature) with
                       | Some s => Ok s
                       | None => Throw TypeError (* not reached: an object *)
                       end in
     let* encryptedMessage := eth_encryptWithPublicKey receiverPublicKey plaintext in
     let* encryptedString := eth_cipher_stringify encryptedMessage in
     Ok (JObj [("receiver", JStr receiverPublicKey); ("message", JStr encryptedString)]))
    (fun _ => Throw (Error "Failed to encode message.")).

(** [decodeMessage] (src/index.js 101-124). *)
Definition decodeMessage (encryptedString receiverPrivateKey : string) : result jsval :=
  js_try
    (let* encryptedObject := eth_cipher_parse encryptedString in
     let* decrypted := eth_decryptWithPrivateKey receiverPrivateKey encryptedObject in
     let* decryptedPayload := json_parse decrypted in
     let* signature := get decryptedPayload "signature" in
     let* message := get decryptedPayload "message" in
     let* msgHash := hashMessage_value message in
     let* senderAddress := eth_recoverPublicKey signature msgHash in
     let* receiver := eth_publicKeyByPrivateKey receiverPrivateKey in
     let* message' := get decryptedPayload "message" in
     Ok (JObj [("sender", JStr senderAddress); ("receiver", JStr receiver);
               ("message", message')]))
    (fun _ => Throw (Error "Failed to decode message.")).

End Cipher.

End Messages.

(** * Commits of the elliptic-curve version (src/unnamed/part_003) *)

Module Part003Commit.
Import JS Commit.

(** [difficultyverify] (part_003 33-35): [hash.startsWith("0".repeat(difficulty))]. *)
Definition difficultyverify (difficulty : Z) (hash : string) : result bool :=
  let* zeros := js_repeat "0" difficulty in
  Ok (String.prefix zeros hash).

Section Crypto.

(** crypto-js and elliptic: [SHA256(m).toString(Hex)]; signing with
    [keyFromPrivate(k).sign(h).toDER("hex")]; recovery from a DER hex
    signature, [recoverPubKey(...).encode("hex")]; and
    [keyFromPrivate(k).getPublic("hex")]. *)
Variable sha256_hex : string -> string.
Variable ec_sign : string -> string -> result string.
Variable ec_recover : jsval -> string -> result string.
Variable ec_getPublic : string -> result string.

(** [hashMessage] (42-44). *)
Definition hashMessage (message : string) : string := sha256_hex message.

(** [signMessage] (52-57). *)
Definition signMessage (privateKey message : string) : result string :=
  ec_sign privateKey (hashMessage message).

(** [recoverPublicKey] (65-74). *)
Definition recoverPublicKey (signature : jsval) (message : string) : result string :=
  ec_recover signature (hashMessage message).

(** [privateKeyToPublicKey] (22-25). *)
Definition privateKeyToPublicKey (privateKey : string) : result string :=
  ec_getPublic privateKey.

Definition nonce_attempt (data : jsval) (commitAt : string) (difficulty nonce : Z)
  : result (bool * string) :=
  let* hashString := hash_string data (JStr commitAt) (JNum nonce) in
  let messageHash := hashMessage hashString in
  let* ok := difficultyverify difficulty messageHash in
  Ok (ok, messageHash).

(** The mining loop of [createCommit] (167-176), for at most [fuel] rounds. *)
Fixpoint mine (fuel : nat) (data : jsval) (commitAt : string) (difficulty nonce : Z)
  : option (result (Z * string)) :=
  match fuel with
  | O => None
  | S fuel' =>
      let nonce := nonce + 1 in
      match nonce_attempt data commitAt difficulty nonce with
      | Throw e => Some (Throw e)
      | Ok (ok, messageHash) =>
          if negb ok then mine fuel' data commitAt difficulty nonce
          else Some (Ok (nonce, messageHash))
      end
  end.

(** [createCommit] (158-182). *)
Definition createCommit (fuel : nat) (privateKey : string) (data type : jsval)
  (difficulty : Z) (now : string) : option (result jsval) :=
  let failed := Throw (Error "Failed to create commit.") in
  match mine fuel data now difficulty 0 with
  | None => None
  | Some (Throw _) => Some failed
  | Some (Ok (nonce, messageHash)) =>
      Some (match signMessage privateKey messageHash with
            | Throw _ => failed
            | Ok signature =>
                match privateKeyToPublicKey privateKey with
                | Throw _ => failed
                | Ok publicKey =>
                    Ok (commit_obj (JStr now) data (JStr publicKey) (JStr signature)
                                   type (JNum nonce))
                end
            end)
  end.

End Crypto.

(** [verifyObject] (217-234): the six properties, in order, then
    [checkDataStructure(dataObject.data, dataObject.type)]. *)
Definition verifyObject (dataObject : jsval) : result bool :=
  let* b := all_own dataObject ["commitAt"; "data"; "publicKey"; "signature"; "type"; "nonce"] in
  if negb b then Ok false else
  let* data := get dataObject "data" in
  let* type := get dataObject "type" in
  Part003.checkDataStructure data type.

Section Verify.

Variable sha256_hex : string -> string.
Variable ec_recover : jsval -> string -> result string.

(** [verifyCommit] (190-210). *)
Definition verifyCommit (commit : jsval) (difficulty : Z) : result bool :=
  let* vo := verifyObject commit in
  if negb vo then Ok false else
  js_try
    (let* data := get commit "data" in
     let* commitAt := get commit "commitAt" in
     let* nonce := get commit "nonce" in
     let* hashString := hash_string data commitAt nonce in
     let hashedData := hashMessage sha256_hex hashString in
     let* ok := difficultyverify difficulty hashedData in
     if negb ok then Ok false else
     let* signature := get commit "signature" in
     let* signer := recoverPublicKey sha256_hex ec_recover signature hashedData in
     let* publicKey := get commit "publicKey" in
     Ok (str_strict_eq signer publicKey))
    (fun _ => Ok false).

End Verify.

End Part003Commit.

(** * Auxiliary notions for statements about attachments *)

Module Attach.
Import JS.

(** An object literal without an own [hasOwnProperty] property. *)
Definition plain_object (v : jsval) : Prop :=
  exists kvs, v = JObj kvs /\ obj_lookup "hasOwnProperty" kvs = None.

Definition obj_has (k : string) (v : jsval) : bool :=
  match v with
  | JObj kvs => existsb (String.eqb k) (obj_keys kvs)
  | _ => false
  end.

(** The number of elements of [l] with an own property [k]. *)
Fixpoint count_key (k : string) (l : list jsval) : nat :=
  match l with
  | [] => O
  | v :: r => ((if obj_has k v then 1 else 0) + count_key k r)%nat
  end.

(** What part_003's [checkDataStructure] asks of a hashtag and of an
    attachment. *)
Definition valid_tag (v : jsval) : bool :=
  match v with
  | JStr s => (Nat.leb (String.length s) 32 && alnum_only s)%bool
  | _ => false
  end.

Definition valid_attachment (v : jsval) : bool :=
  match v with
  | JObj kvs =>
      (obj_has "type" v &&
       match obj_lookup "type" kvs with
       | Some (JStr t) => String.eqb "image" t || String.eqb "video" t || String.eqb "others" t
       | _ => false
       end &&
       (obj_has "cid" v || obj_has "url" v))%bool
  | _ => false
  end.

(** The step of the fold computing [obj_keys]. *)
Definition obj_keys_step (acc : list string) (k : string) : list string :=
  if existsb (String.eqb k) acc then acc else app acc [k].

(** An object with further properties appended after its own. *)
Definition with_fields (v : jsval) (extra : list (string * jsval)) : jsval :=
  match v with
  | JObj kvs => JObj (app kvs extra)
  | _ => v
  end.

End Attach.

(** * Concrete instances

    Toy instances of the eth-crypto primitives, satisfying the
    sign/recover law, to run the development on concrete inputs: the
    digest starts with "0" exactly when the hashed string ends in "3". *)

Module Toy.
Import JS.

Definition keccak_toy (s : string) : string :=
  match String.get (String.length s - 1) s with
  | Some "3"%char => "0abc"
  | _ => "abc"
  end.

Definition sign_toy (privateKey msgHash : string) : result string := Ok privateKey.

Definition recover_toy (signature : jsval) (msgHash : string) : result string :=
  match signature with
  | JStr s => Ok s
  | _ => Throw TypeError
  end.

Definition pub_toy (privateKey : string) : result string := Ok privateKey.

(** The payload of src/unnamed/part_000: [postTemplate("Hello Boy", ["news"], [])]. *)
Definition hello_post : jsval :=
  Index.postTemplate (JStr "Hello Boy") (JArr [JStr "news"]) (JArr []) JNull.

Definition other_post : jsval :=
  Index.postTemplate (JStr "Goodbye") (JArr []) (JArr []) JNull.

Definition some_meta : jsval :=
  Index.metaTemplate (JStr "n") (JStr "a") (JStr "i") (JStr "w") (JArr []) (JArr []) (JArr []).

Definition now0 : string := "2024-01-01T00:00:00.000Z".

Definition bad_tags_post : jsval :=
  Index.postTemplate (JStr "x")
    (JArr [JStr "not-alnum!"; JStr "abcdefghijklmnopqrstuvwxyzabcdefg"; JNum 7])
    (JArr []) JNull.

(** Attachments: one with both identifiers, one of an unknown type, one
    without a type, a conforming one, one without an identifier. *)
Definition att_cid_url : jsval :=
  JObj [("type", JStr "image"); ("cid", JStr "Qm1"); ("url", JStr "https://a.b/c.png")].
Definition att_gif : jsval := JObj [("type", JStr "gif"); ("cid", JStr "Qm2")].
Definition att_untyped : jsval := JObj [("cid", JStr "Qm3")].
Definition att_image : jsval := JObj [("type", JStr "image"); ("url", JStr "https://a.b/d.png")].
Definition att_typed_only : jsval := JObj [("type", JStr "video")].

Definition post_with (attachments : list jsval) : jsval :=
  Index.postTemplate (JStr "x") (JArr []) (JArr attachments) JNull.

(** An object with six fields, [data] replaced by [extra]. *)
Definition commit_without_data : jsval :=
  JObj [("commitAt", JStr now0); ("extra", JNum 0); ("publicKey", JStr "pk");
        ("signature", JStr "sig"); ("type", JStr "post"); ("nonce", JNum 1)].

(** A commit of [hello_post] with a seventh field. *)
Definition commit_with_extra : jsval :=
  JObj [("commitAt", JStr now0); ("data", hello_post); ("publicKey", JStr "pk");
        ("signature", JStr "sig"); ("type", JStr "post"); ("nonce", JNum 1);
        ("extra", JNum 0)].

(** Toy encryption: the ciphertext is the plaintext, its string form too. *)
Definition encrypt_toy (publicKey plaintext : string) : result jsval := Ok (JStr plaintext).

Definition cipher_stringify_toy (v : jsval) : result string :=
  match v with
  | JStr s => Ok s
  | _ => Throw TypeError
  end.

Definition cipher_parse_toy (s : string) : result jsval := Ok (JStr s).

Definition decrypt_toy (privateKey : string) (v : jsval) : result string :=
  match v with
  | JStr s => Ok s
  | _ => Throw TypeError
  end.

Definition keccak_value_toy (v : jsval) : result string := Throw TypeError.

(** The JSON text of the payload signed by "alice" (whose toy signature
    is her key), and [JSON.parse] on that one text. *)
Definition alice_text : string :=
  match Messages.json_stringify (Messages.signed_payload "hi" "alice") with
  | Some t => t
  | None => ""
  end.

Definition json_parse_toy (s : string) : result jsval :=
  if String.eqb s alice_text then Ok (Messages.signed_payload "hi" "alice")
  else Throw (Error "SyntaxError").

End Toy.

(** * Properties *)

Import JS Commit.

Lemma str_app_nil_r : forall s, (s ++ "")%string = s.
Proof. induction s as [|c s IH]; simpl; [reflexivity | now rewrite IH]. Qed.

Lemma str_app_assoc : forall a b c, (a ++ (b ++ c))%string = ((a ++ b) ++ c)%string.
Proof. induction a as [|x a IH]; intros; simpl; [reflexivity | now rewrite IH]. Qed.

Lemma prefix_iff : forall a b, String.prefix a b = true <-> exists r, b = (a ++ r)%string.
Proof.
  induction a as [|c a IH]; intros b; destruct b as [|c' b]; simpl.
  - split; [intros _; now exists "" | reflexivity].
  - split; [intros _; now exists (String c' b) | reflexivity].
  - split; [discriminate | intros [r Hr]; discriminate].
  - destruct (ascii_dec c c') as [<-|Hne].
    + rewrite IH. split; intros [r Hr]; exists r; [now rewrite Hr | now injection Hr].
    + split; [discriminate | intros [r Hr]; injection Hr; intros; congruence].
Qed.

Lemma repeat_str_S_r : forall s n, repeat_str s (S n) = (repeat_str s n ++ s)%string.
Proof.
  intros s n; induction n as [|n IH].
  - simpl. now rewrite str_app_nil_r.
  - change (repeat_str s (S (S n))) with (s ++ repeat_str s (S n))%string.
    rewrite IH at 1. cbn [repeat_str]. now rewrite str_app_assoc.
Qed.

Lemma difficultyverify_hashMessage : forall kh s d, 0 <= d ->
  difficultyverify d (hashMessage kh s) = Ok (String.prefix (repeat_str "0" (Z.to_nat d)) (kh s)).
Proof.
  intros kh s d Hd. unfold difficultyverify, js_repeat.
  destruct (Z.ltb_spec d 0); [lia|]. reflexivity.
Qed.

Lemma difficultyverify_zero : forall kh s, difficultyverify 0 (hashMessage kh s) = Ok true.
Proof. intros kh s. unfold difficultyverify, hashMessage. simpl. now destruct (kh s). Qed.

Lemma Ok_inj : forall {A} (a b : A), Ok a = Ok b <-> a = b.
Proof. split; [intros H; now injection H | now intros ->]. Qed.

Lemma mine_spec : forall kh fuel data now d k n h,
  mine kh fuel data now d k = Some (Ok (n, h)) ->
  k < n /\ nonce_attempt kh data now d n = Ok (true, h) /\
  (forall m, k < m < n -> exists h', nonce_attempt kh data now d m = Ok (false, h')).
Proof.
  intros kh fuel; induction fuel as [|fuel IH]; intros data now d k n h H; simpl in H.
  - discriminate.
  - destruct (nonce_attempt kh data now d (k + 1)) as [[ok mh]|e] eqn:E; [|discriminate].
    destruct ok; simpl in H.
    + injection H as <- <-. split; [lia|]. split; [exact E|]. intros; lia.
    + apply IH in H as (H1 & H2 & H3). split; [lia|]. split; [exact H2|].
      intros m Hm. destruct (Z.eq_dec m (k + 1)) as [->|Hne]; [eauto | apply H3; lia].
Qed.

Lemma createCommit_ok : forall kh sign pub fuel sk data ty d now c,
  createCommit kh sign pub fuel sk data ty d now = Some (Ok c) ->
  exists n h sig pk,
    mine kh fuel data now d 0 = Some (Ok (n, h)) /\
    signMessage kh sign sk h = Ok sig /\ pub sk = Ok pk /\
    c = commit_obj (JStr now) data (JStr pk) (JStr sig) ty (JNum n).
Proof.
  intros kh sign pub fuel sk data ty d now c H. unfold createCommit in H.
  destruct (mine kh fuel data now d 0) as [[[n h]|e]|]; try discriminate.
  destruct (signMessage kh sign sk h) as [sig|e] eqn:Es; try discriminate.
  destruct (pub sk) as [pk|e] eqn:Ep; try discriminate.
  injection H as <-. exists n, h, sig, pk. auto.
Qed.

(** ** Proof of work *)

(** C4: [createCommit] tries the nonces 1, 2, 3, ... in turn on the same
    payload and timestamp and returns the first whose digest meets the
    difficulty: the nonce [n] it returns is at least 1, its digest meets the
    difficulty, and every nonce [m] with [1 <= m < n] fails it. *)
Theorem createCommit_minimal_nonce :
  forall kh sign pub fuel sk data ty d now c,
  createCommit kh sign pub fuel sk data ty d now = Some (Ok c) ->
  exists n pk sig,
    c = commit_obj (JStr now) data (JStr pk) (JStr sig) ty (JNum n) /\
    1 <= n /\
    (exists h, nonce_attempt kh data now d n = Ok (true, h)) /\
    (forall m, 1 <= m < n -> exists h', nonce_attempt kh data now d m = Ok (false, h')).
Proof.
  intros kh sign pub fuel sk data ty d now c H.
  apply createCommit_ok in H as (n & h & sig & pk & Hm & _ & _ & ->).
  apply mine_spec in Hm as (H1 & H2 & H3).
  exists n, pk, sig. repeat split; [lia | now exists h |].
  intros m Hm. apply H3. lia.
Qed.

Lemma createCommit_minimal_nonce_witness :
  exists c,
    createCommit Toy.keccak_toy Toy.sign_toy Toy.pub_toy 10 "sk" Toy.hello_post
      (JStr "post") 1 "T" = Some (Ok c) /\
    exists n pk sig,
      c = commit_obj (JStr "T") Toy.hello_post (JStr pk) (JStr sig) (JStr "post") (JNum n) /\
      1 <= n /\
      (exists h, nonce_attempt Toy.keccak_toy Toy.hello_post "T" 1 n = Ok (true, h)) /\
      (forall m, 1 <= m < n ->
         exists h', nonce_attempt Toy.keccak_toy Toy.hello_post "T" 1 m = Ok (false, h')).
Proof.
  eexists. split.
  - vm_compute. reflexivity.
  - apply (createCommit_minimal_nonce Toy.keccak_toy Toy.sign_toy Toy.pub_toy 10 "sk"
             Toy.hello_post (JStr "post") 1 "T").
    vm_compute. reflexivity.
Defined.

(** C5: [difficultyverify d] accepts a digest iff its hex part (after the
    "0x" that keccak256 puts first) begins with [d] characters '0'; at
    difficulty 0 every digest is accepted and mining stops at nonce 1;
    a digest meeting difficulty [d + 1] meets difficulty [d]. *)
Theorem difficultyverify_leading_zeros :
  forall (kh : string -> string) (s : string) (d : Z), 0 <= d ->
    (difficultyverify d (hashMessage kh s) = Ok true <->
       exists rest, kh s = (repeat_str "0" (Z.to_nat d) ++ rest)%string) /\
    difficultyverify 0 (hashMessage kh s) = Ok true /\
    (difficultyverify (d + 1) (hashMessage kh s) = Ok true ->
       difficultyverify d (hashMessage kh s) = Ok true) /\
    (forall data now fuel str, to_str data = Ok str ->
       mine kh (S fuel) data now 0 0 =
         Some (Ok (1, hashMessage kh (str ++ now ++ "1")%string))).
Proof.
  intros kh s d Hd. split; [|split; [|split]].
  - rewrite (difficultyverify_hashMessage kh s d Hd), Ok_inj. apply prefix_iff.
  - apply difficultyverify_zero.
  - rewrite (difficultyverify_hashMessage kh s (d + 1)) by lia.
    rewrite (difficultyverify_hashMessage kh s d Hd), !Ok_inj, !prefix_iff.
    intros [rest Hr]. rewrite Z2Nat.inj_add, Nat.add_1_r, repeat_str_S_r in Hr by lia.
    exists ("0" ++ rest)%string. now rewrite Hr, str_app_assoc.
  - intros data now fuel str Hs. simpl. unfold nonce_attempt, hash_string.
    rewrite Hs. simpl. now destruct (kh _).
Qed.

Lemma difficultyverify_leading_zeros_witness :
  0 <= 2 /\
  ((difficultyverify 2 (hashMessage Toy.keccak_toy "x") = Ok true <->
      exists rest, Toy.keccak_toy "x" = (repeat_str "0" (Z.to_nat 2) ++ rest)%string) /\
   difficultyverify 0 (hashMessage Toy.keccak_toy "x") = Ok true /\
   (difficultyverify (2 + 1) (hashMessage Toy.keccak_toy "x") = Ok true ->
      difficultyverify 2 (hashMessage Toy.keccak_toy "x") = Ok true) /\
   (forall data now fuel str, to_str data = Ok str ->
      mine Toy.keccak_toy (S fuel) data now 0 0 =
        Some (Ok (1, hashMessage Toy.keccak_toy (str ++ now ++ "1")%string)))).
Proof.
  split; [lia|]. apply (difficultyverify_leading_zeros Toy.keccak_toy "x" 2). lia.
Defined.

Lemma nonce_attempt_same_string : forall kh p1 p2 now d n,
  to_str p1 = to_str p2 -> nonce_attempt kh p1 now d n = nonce_attempt kh p2 now d n.
Proof. intros kh p1 p2 now d n H. unfold nonce_attempt, hash_string. now rewrite H. Qed.

(** C10: the hashed string is built by the template literal
    [`${data}${commitAt}${nonce}`], so two payload objects that both
    render as "[object Object]" give the same hashed string at equal
    [commitAt] and [nonce], hence the same digest, the same outcome of
    every mining round and the same mining result. *)
Theorem commit_digest_ignores_payload :
  forall kh p1 p2,
    to_str p1 = Ok "[object Object]" -> to_str p2 = Ok "[object Object]" ->
    (forall commitAt nonce, hash_string p1 commitAt nonce = hash_string p2 commitAt nonce) /\
    (forall now d n, nonce_attempt kh p1 now d n = nonce_attempt kh p2 now d n) /\
    (forall fuel now d k, mine kh fuel p1 now d k = mine kh fuel p2 now d k).
Proof.
  intros kh p1 p2 H1 H2.
  assert (E : to_str p1 = to_str p2) by now rewrite H1, H2.
  split; [|split].
  - intros commitAt nonce. unfold hash_string. now rewrite E.
  - intros. now apply nonce_attempt_same_string.
  - intros fuel; induction fuel as [|fuel IH]; intros now d k; simpl; [reflexivity|].
    rewrite (nonce_attempt_same_string kh p1 p2 now d (k + 1) E).
    destruct (nonce_attempt kh p2 now d (k + 1)) as [[[|] h]|e]; simpl; auto.
Qed.

Lemma commit_digest_ignores_payload_witness :
  to_str Toy.hello_post = Ok "[object Object]" /\
  to_str Toy.other_post = Ok "[object Object]" /\
  ((forall commitAt nonce,
      hash_string Toy.hello_post commitAt nonce = hash_string Toy.other_post commitAt nonce) /\
   (forall now d n,
      nonce_attempt Toy.keccak_toy Toy.hello_post now d n =
      nonce_attempt Toy.keccak_toy Toy.other_post now d n) /\
   (forall fuel now d k,
      mine Toy.keccak_toy fuel Toy.hello_post now d k =
      mine Toy.keccak_toy fuel Toy.other_post now d k)).
Proof.
  split; [reflexivity | split; [reflexivity|]].
  apply commit_digest_ignores_payload; reflexivity.
Defined.

(** ** Verification of a commit literal *)

Section VerifyUnfold.
Local Opaque Index.checkdatastructure hash_string difficultyverify hashMessage recoverPublicKey.

(** On an object with exactly the six commit fields, [verifyObject] reduces
    to [checkdatastructure]; the rest is the [try] block of [verifyCommit]. *)
Lemma verifyCommit_commit_obj : forall kh recover ca p pk sig ty n d,
  verifyCommit kh recover (commit_obj ca p pk sig ty n) d =
  match Index.checkdatastructure p ty with
  | Ok true =>
      js_try (let* hashString := hash_string p ca n in
              let hashedData := hashMessage kh hashString in
              let* ok := difficultyverify d hashedData in
              if negb ok then Ok false else
              let* signer := recoverPublicKey kh recover sig hashedData in
              Ok (str_strict_eq signer pk)) (fun _ => Ok false)
  | Ok false => Ok false
  | Throw e => Throw e
  end.
Proof.
  intros. unfold verifyCommit, verifyObject. simpl.
  destruct (Index.checkdatastructure p ty) as [[|]|e]; reflexivity.
Qed.

End VerifyUnfold.

Lemma hashtag_cb_total : forall el, exists r, Index.hashtag_cb el = Ok r.
Proof.
  intros el; unfold Index.hashtag_cb; destruct el; eauto.
  destruct (Nat.ltb 32 (String.length s)); [eauto|].
  destruct (negb (alnum_only s)); eauto.
Qed.

Lemma forEach_hashtags_ok : forall l,
  forEach_list (fun st el => let* _ := Index.hashtag_cb el in Ok st) tt l = Ok tt.
Proof.
  induction l as [|x l IH]; simpl; [reflexivity|].
  destruct (hashtag_cb_total x) as [r ->]. exact IH.
Qed.

(** A post with an array of hashtags, whatever they are, and no
    attachments passes [checkdatastructure]. *)
Lemma checkdatastructure_post_no_attachments : forall content parent tags type,
  Index.checkdatastructure (Index.postTemplate content (JArr tags) (JArr []) parent) type
  = Ok true.
Proof.
  intros. unfold Index.checkdatastructure. simpl js_truthy. cbv iota.
  unfold Index.post_branch. simpl.
  destruct (0 <? Z.of_nat (List.length tags)); simpl;
    [rewrite forEach_hashtags_ok|]; reflexivity.
Qed.

(** Round trip for posts without attachments: under the sign/recover law
    of the crypto primitives, a commit made by [createCommit] verifies at
    the difficulty it was mined at. *)
Lemma createCommit_post_roundtrip :
  forall kh sign pub recover,
  (forall sk m sig pk, sign sk m = Ok sig -> pub sk = Ok pk -> recover (JStr sig) m = Ok pk) ->
  forall fuel sk content parent tags d now c,
  createCommit kh sign pub fuel sk (Index.postTemplate content (JArr tags) (JArr []) parent)
    (JStr "post") d now = Some (Ok c) ->
  verifyCommit kh recover c d = Ok true.
Proof.
  intros kh sign pub recover Hlaw fuel sk content parent tags d now c H.
  apply createCommit_ok in H as (n & h & sig & pk & Hm & Hs & Hp & ->).
  apply mine_spec in Hm as (_ & Ha & _).
  rewrite verifyCommit_commit_obj, checkdatastructure_post_no_attachments.
  unfold nonce_attempt in Ha.
  destruct (hash_string _ (JStr now) (JNum n)) as [hs|e]; simpl in Ha; [|discriminate].
  destruct (difficultyverify d (hashMessage kh hs)) as [ok|e] eqn:Ed; simpl in Ha;
    [|discriminate].
  injection Ha as -> <-. simpl. rewrite Ed. simpl.
  unfold signMessage in Hs. unfold recoverPublicKey.
  rewrite (Hlaw _ _ _ _ Hs Hp). simpl. now rewrite String.eqb_refl.
Qed.

(** ** Round trip for meta and message commits *)

(** C1: [checkdatastructure] always applies the post rules, so a commit
    that [createCommit] makes for a [metaTemplate] payload with type
    "meta", or for a message envelope with type "message", fails
    [verifyObject]: [verifyCommit] returns false on it at any difficulty,
    whatever the keys and crypto primitives. *)
Theorem verifyCommit_rejects_meta_and_message_commits :
  forall kh sign pub recover fuel sk d d' now c,
  (forall name about image website followed hashtags bookmarks,
     createCommit kh sign pub fuel sk
       (Index.metaTemplate name about image website followed hashtags bookmarks)
       (JStr "meta") d now = Some (Ok c) ->
     verifyCommit kh recover c d' = Ok false) /\
  (forall receiver message,
     createCommit kh sign pub fuel sk (JObj [("receiver", receiver); ("message", message)])
       (JStr "message") d now = Some (Ok c) ->
     verifyCommit kh recover c d' = Ok false).
Proof.
  intros kh sign pub recover fuel sk d d' now c. split.
  - intros name about image website followed hashtags bookmarks H.
    apply createCommit_ok in H as (n & h & sig & pk & _ & _ & _ & ->).
    rewrite verifyCommit_commit_obj. reflexivity.
  - intros receiver message H.
    apply createCommit_ok in H as (n & h & sig & pk & _ & _ & _ & ->).
    rewrite verifyCommit_commit_obj. reflexivity.
Qed.

Lemma verifyCommit_rejects_meta_and_message_commits_witness :
  Part003.checkDataStructure Toy.some_meta (JStr "meta") = Ok true /\
  exists c,
    createCommit Toy.keccak_toy Toy.sign_toy Toy.pub_toy 5 "sk" Toy.some_meta
      (JStr "meta") 0 Toy.now0 = Some (Ok c) /\
    verifyCommit Toy.keccak_toy Toy.recover_toy c 0 = Ok false.
Proof.
  split; [reflexivity|].
  eexists. split; [vm_compute; reflexivity|].
  apply (proj1 (verifyCommit_rejects_meta_and_message_commits Toy.keccak_toy Toy.sign_toy
           Toy.pub_toy Toy.recover_toy 5 "sk" 0 0 Toy.now0 _)
           (JStr "n") (JStr "a") (JStr "i") (JStr "w") (JArr []) (JArr []) (JArr [])).
  vm_compute. reflexivity.
Defined.

(** ** Tampering with the payload *)

(** C2: the payload enters the hashed string only as its template-literal
    rendering, so replacing the [data] of a commit that verifies by any
    other payload that renders as "[object Object]" and passes
    [checkdatastructure] leaves [verifyCommit] true. *)
Theorem verifyCommit_data_swap :
  forall kh recover ca p1 p2 pk sig ty n d,
  to_str p1 = Ok "[object Object]" -> to_str p2 = Ok "[object Object]" ->
  Index.checkdatastructure p2 ty = Ok true ->
  verifyCommit kh recover (commit_obj ca p1 pk sig ty n) d = Ok true ->
  verifyCommit kh recover (commit_obj ca p2 pk sig ty n) d = Ok true.
Proof.
  intros kh recover ca p1 p2 pk sig ty n d H1 H2 Hc Hv.
  rewrite verifyCommit_commit_obj in *. rewrite Hc.
  destruct (Index.checkdatastructure p1 ty) as [[|]|e]; try discriminate.
  unfold hash_string in *. rewrite H1 in Hv. rewrite H2. exact Hv.
Qed.

Lemma verifyCommit_data_swap_witness :
  to_str Toy.hello_post = Ok "[object Object]" /\
  to_str Toy.other_post = Ok "[object Object]" /\
  Index.checkdatastructure Toy.other_post (JStr "post") = Ok true /\
  verifyCommit Toy.keccak_toy Toy.recover_toy
    (commit_obj (JStr "T") Toy.hello_post (JStr "sk") (JStr "sk") (JStr "post") (JNum 3)) 1
    = Ok true /\
  verifyCommit Toy.keccak_toy Toy.recover_toy
    (commit_obj (JStr "T") Toy.other_post (JStr "sk") (JStr "sk") (JStr "post") (JNum 3)) 1
    = Ok true.
Proof.
  split; [reflexivity|]. split; [reflexivity|]. split; [reflexivity|].
  split; [vm_compute; reflexivity|].
  apply (verifyCommit_data_swap Toy.keccak_toy Toy.recover_toy (JStr "T") Toy.hello_post
           Toy.other_post (JStr "sk") (JStr "sk") (JStr "post") (JNum 3) 1);
    vm_compute; reflexivity.
Defined.

(** ** Exceptions escaping [verifyCommit] *)

(** C3: [verifyObject] runs before the [try] of [verifyCommit], and
    [checkdatastructure] calls [data.hasOwnProperty] without checking
    [data]: on a commit whose [data] is null, [verifyCommit] throws a
    TypeError instead of returning false. *)
Theorem verifyCommit_null_data_throws : forall kh recover d,
  verifyCommit kh recover
    (commit_obj (JStr "2024-01-01T00:00:00.000Z") JNull (JStr "pk") (JStr "sig")
       (JStr "post") (JNum 1)) d
  = Throw TypeError.
Proof. intros. rewrite verifyCommit_commit_obj. reflexivity. Qed.

(** ** Type-tag dispatch *)

(** C6: [checkdatastructure] assigns instead of comparing the type tag, so
    it applies the post rules whatever the tag: a post-shaped payload is
    accepted under the tag "banana", a meta payload is rejected under "meta"
    (the equality-based [checkDataStructure] of part_003 accepts it), and a
    null payload makes it throw. *)
Theorem checkdatastructure_ignores_type_tag :
  (forall data type, Index.checkdatastructure data type = Index.post_branch data) /\
  Index.checkdatastructure Toy.other_post (JStr "banana") = Ok true /\
  Part003.checkDataStructure Toy.other_post (JStr "banana") = Ok false /\
  Index.checkdatastructure Toy.some_meta (JStr "meta") = Ok false /\
  Part003.checkDataStructure Toy.some_meta (JStr "meta") = Ok true /\
  Index.checkdatastructure JNull (JStr "post") = Throw TypeError.
Proof.
  split; [reflexivity|]. repeat split; vm_compute; reflexivity.
Qed.

(** ** Hashtags *)

(** C7: the hashtag checks return from the [forEach] callback, not from
    [checkdatastructure]: a post whose hashtags are any array (and without
    attachments) passes, so one with a non-alphanumeric tag, a tag of 33
    characters and a number as a tag is accepted; part_003's [every]-based
    check rejects it. *)
Theorem checkdatastructure_hashtags_unchecked :
  (forall content parent tags type,
     Index.checkdatastructure (Index.postTemplate content (JArr tags) (JArr []) parent) type
     = Ok true) /\
  Index.checkdatastructure Toy.bad_tags_post (JStr "post") = Ok true /\
  Part003.checkDataStructure Toy.bad_tags_post (JStr "post") = Ok false.
Proof.
  split; [exact checkdatastructure_post_no_attachments|].
  split; vm_compute; reflexivity.
Qed.

(** ** Attachments *)

(** C8: [checkdatastructure] only checks that some attachment has a
    [type] field and that the number of [cid] and [url] fields over all
    attachments is odd: an attachment with both [cid] and [url] is rejected
    although it conforms; one of type "gif" is accepted, and so are one
    without a type next to one without an identifier; two conforming
    attachments with one identifier each are rejected. part_003's [every]-based check decides
    each case the other way. *)
Theorem checkdatastructure_attachment_parity :
  Index.checkdatastructure (Toy.post_with [Toy.att_cid_url]) (JStr "post") = Ok false /\
  Part003.checkDataStructure (Toy.post_with [Toy.att_cid_url]) (JStr "post") = Ok true /\
  Index.checkdatastructure (Toy.post_with [Toy.att_gif]) (JStr "post") = Ok true /\
  Part003.checkDataStructure (Toy.post_with [Toy.att_gif]) (JStr "post") = Ok false /\
  Index.checkdatastructure (Toy.post_with [Toy.att_untyped; Toy.att_typed_only]) (JStr "post")
    = Ok true /\
  Part003.checkDataStructure (Toy.post_with [Toy.att_untyped; Toy.att_typed_only]) (JStr "post")
    = Ok false /\
  Index.checkdatastructure (Toy.post_with [Toy.att_image; Toy.att_image]) (JStr "post")
    = Ok false /\
  Part003.checkDataStructure (Toy.post_with [Toy.att_image; Toy.att_image]) (JStr "post")
    = Ok true.
Proof. repeat split; vm_compute; reflexivity. Qed.

(** ** Field completeness *)

(** C9: [verifyObject] checks the number of keys, then runs
    [checkdatastructure] on [dataObject.data], and only then checks the
    field names, all outside the [try] of [verifyCommit]: an object with six
    fields of which [data] is not one makes [verifyCommit] throw a
    TypeError, while an object with a seventh field is rejected. *)
Theorem verifyCommit_six_fields_without_data_throws : forall kh recover d,
  verifyCommit kh recover Toy.commit_without_data d = Throw TypeError /\
  verifyCommit kh recover Toy.commit_with_extra d = Ok false.
Proof. intros. split; reflexivity. Qed.

(** * Further properties of the commit functions *)

Ltac reduce_js := cbn [bind js_try negb] in *.

Lemma repeat_str_add : forall s a b,
  repeat_str s (a + b) = (repeat_str s a ++ repeat_str s b)%string.
Proof.
  intros s a b; induction a as [|a IH]; simpl; [reflexivity|].
  now rewrite IH, str_app_assoc.
Qed.

Lemma difficultyverify_mono : forall d d' h, 0 <= d' <= d ->
  difficultyverify d h = Ok true -> difficultyverify d' h = Ok true.
Proof.
  intros d d' h Hd H. unfold difficultyverify, js_repeat in *.
  destruct (Z.ltb_spec d 0); [lia|]. destruct (Z.ltb_spec d' 0); [lia|].
  simpl in *. injection H as H. f_equal.
  apply prefix_iff in H as [r Hr]. apply prefix_iff.
  replace (Z.to_nat d) with (Z.to_nat d' + (Z.to_nat d - Z.to_nat d'))%nat in Hr by lia.
  rewrite repeat_str_add in Hr.
  exists (repeat_str "0" (Z.to_nat d - Z.to_nat d') ++ r)%string.
  rewrite Hr. simpl. now rewrite str_app_assoc.
Qed.

Lemma difficultyverify_neg : forall d h, d < 0 -> difficultyverify d h = Throw RangeError.
Proof.
  intros d h Hd. unfold difficultyverify, js_repeat.
  destruct (Z.ltb_spec d 0); [reflexivity | lia].
Qed.

(** [verifyCommit] of src/index.js is [verifyObject] followed by the
    [verifyCommit] of part_002. *)
Lemma verifyCommit_via_part002 : forall kh recover c d,
  verifyCommit kh recover c d =
  (let* vo := verifyObject c in if negb vo then Ok false else Part002.verifyCommit kh recover c d).
Proof. reflexivity. Qed.

Section CommitObjUnfold.
Local Opaque Index.checkdatastructure hash_string difficultyverify hashMessage recoverPublicKey.

Lemma verifyObject_commit_obj : forall ca p pk sig ty n,
  verifyObject (commit_obj ca p pk sig ty n) =
  (let* c := Index.checkdatastructure p ty in if negb c then Ok false else Ok true).
Proof.
  intros. unfold verifyObject. simpl.
  destruct (Index.checkdatastructure p ty) as [[|]|e]; reflexivity.
Qed.

Lemma part002_verifyCommit_commit_obj : forall kh recover ca p pk sig ty n d,
  Part002.verifyCommit kh recover (commit_obj ca p pk sig ty n) d =
  js_try (let* hashString := hash_string p ca n in
          let hashedData := hashMessage kh hashString in
          let* ok := difficultyverify d hashedData in
          if negb ok then Ok false else
          let* signer := recoverPublicKey kh recover sig hashedData in
          Ok (str_strict_eq signer pk)) (fun _ => Ok false).
Proof. intros. reflexivity. Qed.

End CommitObjUnfold.

Lemma createCommit_part002_ok : forall kh sign pub recover,
  (forall sk m sig pk, sign sk m = Ok sig -> pub sk = Ok pk -> recover (JStr sig) m = Ok pk) ->
  forall fuel sk data ty d now c,
  createCommit kh sign pub fuel sk data ty d now = Some (Ok c) ->
  Part002.verifyCommit kh recover c d = Ok true /\
  exists n sig pk, c = commit_obj (JStr now) data (JStr pk) (JStr sig) ty (JNum n).
Proof.
  intros kh sign pub recover Hlaw fuel sk data ty d now c H.
  apply createCommit_ok in H as (n & h & sig & pk & Hm & Hs & Hp & ->).
  split; [|eauto].
  apply mine_spec in Hm as (_ & Ha & _).
  rewrite part002_verifyCommit_commit_obj.
  unfold nonce_attempt in Ha.
  destruct (hash_string data (JStr now) (JNum n)) as [hs|e]; simpl in Ha; [|discriminate].
  destruct (difficultyverify d (hashMessage kh hs)) as [ok|e] eqn:Ed; simpl in Ha;
    [|discriminate].
  injection Ha as -> <-. simpl. rewrite Ed. simpl.
  unfold signMessage in Hs. unfold recoverPublicKey.
  rewrite (Hlaw _ _ _ _ Hs Hp). simpl. now rewrite String.eqb_refl.
Qed.

Lemma part002_difficulty_downward : forall kh recover c d d', 0 <= d' <= d ->
  Part002.verifyCommit kh recover c d = Ok true -> Part002.verifyCommit kh recover c d' = Ok true.
Proof.
  intros kh recover c d d' Hd H. unfold Part002.verifyCommit in *.
  destruct (get c "data") as [x|e]; reduce_js; [|discriminate].
  destruct (get c "commitAt") as [y|e]; reduce_js; [|discriminate].
  destruct (get c "nonce") as [z|e]; reduce_js; [|discriminate].
  destruct (hash_string x y z) as [hs|e]; reduce_js; [|discriminate].
  destruct (difficultyverify d (hashMessage kh hs)) as [[|]|e] eqn:Ed; reduce_js;
    try discriminate.
  rewrite (difficultyverify_mono d d' _ Hd Ed). reduce_js. exact H.
Qed.

Lemma part002_negative_difficulty : forall kh recover c d, d < 0 ->
  Part002.verifyCommit kh recover c d = Ok false.
Proof.
  intros kh recover c d Hd. unfold Part002.verifyCommit.
  destruct (get c "data") as [x|e]; reduce_js; [|reflexivity].
  destruct (get c "commitAt") as [y|e]; reduce_js; [|reflexivity].
  destruct (get c "nonce") as [z|e]; reduce_js; [|reflexivity].
  destruct (hash_string x y z) as [hs|e]; reduce_js; [|reflexivity].
  rewrite difficultyverify_neg by exact Hd. reflexivity.
Qed.

(** A law of the toy primitives. *)
Lemma toy_sign_recover_law : forall sk m sig pk,
  Toy.sign_toy sk m = Ok sig -> Toy.pub_toy sk = Ok pk -> Toy.recover_toy (JStr sig) m = Ok pk.
Proof.
  intros sk m sig pk Hs Hp. unfold Toy.sign_toy, Toy.pub_toy, Toy.recover_toy in *.
  injection Hs as <-. injection Hp as <-. reflexivity.
Qed.

(** X1: Round trip for every payload the schema check accepts: under the
    sign/recover law of the crypto primitives, a commit made by
    [createCommit] passes [verifyCommit] at the difficulty it was mined
    at, as soon as [checkdatastructure] accepts its payload and type. *)
Theorem createCommit_verifyCommit_roundtrip : forall kh sign pub recover,
  (forall sk m sig pk, sign sk m = Ok sig -> pub sk = Ok pk -> recover (JStr sig) m = Ok pk) ->
  forall fuel sk data ty d now c,
  Index.checkdatastructure data ty = Ok true ->
  createCommit kh sign pub fuel sk data ty d now = Some (Ok c) ->
  verifyCommit kh recover c d = Ok true.
Proof.
  intros kh sign pub recover Hlaw fuel sk data ty d now c Hc H.
  destruct (createCommit_part002_ok kh sign pub recover Hlaw fuel sk data ty d now c H)
    as [Hv (n & sig & pk & Heq)].
  rewrite verifyCommit_via_part002. rewrite Heq in *.
  rewrite verifyObject_commit_obj, Hc. reduce_js. exact Hv.
Qed.

Lemma createCommit_verifyCommit_roundtrip_witness :
  Index.checkdatastructure Toy.hello_post (JStr "post") = Ok true /\
  createCommit Toy.keccak_toy Toy.sign_toy Toy.pub_toy 10 "sk" Toy.hello_post (JStr "post") 1
    Toy.now0 =
  Some (Ok (commit_obj (JStr Toy.now0) Toy.hello_post (JStr "sk") (JStr "sk") (JStr "post")
                       (JNum 3))) /\
  verifyCommit Toy.keccak_toy Toy.recover_toy
    (commit_obj (JStr Toy.now0) Toy.hello_post (JStr "sk") (JStr "sk") (JStr "post") (JNum 3))
    1 = Ok true.
Proof.
  split; [vm_compute; reflexivity|]. split; [vm_compute; reflexivity|].
  apply (createCommit_verifyCommit_roundtrip Toy.keccak_toy Toy.sign_toy Toy.pub_toy
           Toy.recover_toy toy_sign_recover_law 10 "sk" Toy.hello_post (JStr "post") 1 Toy.now0).
  - vm_compute; reflexivity.
  - vm_compute; reflexivity.
Defined.

(** X2: The [verifyCommit] of part_002 has no schema check: under the
    sign/recover law, a commit made by [createCommit] for any payload and
    any type tag passes it at the difficulty it was mined at. *)
Theorem part002_createCommit_verifyCommit_roundtrip : forall kh sign pub recover,
  (forall sk m sig pk, sign sk m = Ok sig -> pub sk = Ok pk -> recover (JStr sig) m = Ok pk) ->
  forall fuel sk data ty d now c,
  createCommit kh sign pub fuel sk data ty d now = Some (Ok c) ->
  Part002.verifyCommit kh recover c d = Ok true.
Proof.
  intros kh sign pub recover Hlaw fuel sk data ty d now c H.
  exact (proj1 (createCommit_part002_ok kh sign pub recover Hlaw fuel sk data ty d now c H)).
Qed.

Lemma part002_createCommit_verifyCommit_roundtrip_witness :
  createCommit Toy.keccak_toy Toy.sign_toy Toy.pub_toy 10 "sk" Toy.some_meta (JStr "meta") 1
    Toy.now0 =
  Some (Ok (commit_obj (JStr Toy.now0) Toy.some_meta (JStr "sk") (JStr "sk") (JStr "meta")
                       (JNum 3))) /\
  Part002.verifyCommit Toy.keccak_toy Toy.recover_toy
    (commit_obj (JStr Toy.now0) Toy.some_meta (JStr "sk") (JStr "sk") (JStr "meta") (JNum 3))
    1 = Ok true.
Proof.
  split; [vm_compute; reflexivity|].
  apply (part002_createCommit_verifyCommit_roundtrip Toy.keccak_toy Toy.sign_toy Toy.pub_toy
           Toy.recover_toy toy_sign_recover_law 10 "sk" Toy.some_meta (JStr "meta") 1 Toy.now0).
  vm_compute; reflexivity.
Defined.

(** X3: A commit that verifies at difficulty [d] verifies at every
    difficulty [d'] with [0 <= d' <= d], in both versions of [verifyCommit]. *)
Theorem verifyCommit_difficulty_downward : forall kh recover c d d',
  0 <= d' <= d ->
  (verifyCommit kh recover c d = Ok true -> verifyCommit kh recover c d' = Ok true) /\
  (Part002.verifyCommit kh recover c d = Ok true ->
   Part002.verifyCommit kh recover c d' = Ok true).
Proof.
  intros kh recover c d d' Hd. split; [|now apply part002_difficulty_downward].
  rewrite !verifyCommit_via_part002. intros H.
  destruct (verifyObject c) as [[|]|e]; reduce_js; try discriminate.
  now apply (part002_difficulty_downward kh recover c d d').
Qed.

Lemma verifyCommit_difficulty_downward_witness :
  verifyCommit Toy.keccak_toy Toy.recover_toy
    (commit_obj (JStr Toy.now0) Toy.hello_post (JStr "sk") (JStr "sk") (JStr "post") (JNum 3))
    0 = Ok true.
Proof.
  apply (proj1 (verifyCommit_difficulty_downward Toy.keccak_toy Toy.recover_toy
    (commit_obj (JStr Toy.now0) Toy.hello_post (JStr "sk") (JStr "sk") (JStr "post") (JNum 3))
    1 0 ltac:(lia))).
  vm_compute; reflexivity.
Defined.

(** X4: A negative difficulty makes ["0".repeat(difficulty)] throw a
    RangeError: [createCommit] then fails with "Failed to create commit."
    in its first round, the [verifyCommit] of part_002 returns false on
    every value, and the [verifyCommit] of src/index.js never returns true. *)
Theorem negative_difficulty : forall kh sign pub recover d, d < 0 ->
  (forall fuel sk data ty now,
     createCommit kh sign pub (S fuel) sk data ty d now
     = Some (Throw (Error "Failed to create commit."))) /\
  (forall c, Part002.verifyCommit kh recover c d = Ok false) /\
  (forall c, verifyCommit kh recover c d <> Ok true).
Proof.
  intros kh sign pub recover d Hd. split; [|split].
  - intros fuel sk data ty now. unfold createCommit. cbn [mine]. unfold nonce_attempt.
    destruct (hash_string data (JStr now) (JNum (0 + 1))) as [hs|e]; reduce_js;
      [|reflexivity].
    rewrite difficultyverify_neg by exact Hd. reflexivity.
  - intros c. now apply part002_negative_difficulty.
  - intros c. rewrite verifyCommit_via_part002.
    destruct (verifyObject c) as [[|]|e]; reduce_js; try discriminate.
    rewrite part002_negative_difficulty by exact Hd. discriminate.
Qed.

Lemma negative_difficulty_witness :
  createCommit Toy.keccak_toy Toy.sign_toy Toy.pub_toy 5 "sk" Toy.hello_post (JStr "post") (-1)
    Toy.now0 = Some (Throw (Error "Failed to create commit.")).
Proof.
  apply (proj1 (negative_difficulty Toy.keccak_toy Toy.sign_toy Toy.pub_toy Toy.recover_toy
                  (-1) ltac:(lia)) 4%nat).
Defined.

(** X5: Replacing the [publicKey] of a commit that verifies by any other
    value makes [verifyCommit] return false, in both versions. *)
Theorem verifyCommit_publicKey_swap : forall kh recover ca p pk pk' sig ty n d,
  pk' <> pk ->
  (verifyCommit kh recover (commit_obj ca p pk sig ty n) d = Ok true ->
   verifyCommit kh recover (commit_obj ca p pk' sig ty n) d = Ok false) /\
  (Part002.verifyCommit kh recover (commit_obj ca p pk sig ty n) d = Ok true ->
   Part002.verifyCommit kh recover (commit_obj ca p pk' sig ty n) d = Ok false).
Proof.
  intros kh recover ca p pk pk' sig ty n d Hne.
  assert (Hb : Part002.verifyCommit kh recover (commit_obj ca p pk sig ty n) d = Ok true ->
               Part002.verifyCommit kh recover (commit_obj ca p pk' sig ty n) d = Ok false).
  { rewrite !part002_verifyCommit_commit_obj. intros H.
    destruct (hash_string p ca n) as [hs|e]; reduce_js; [|discriminate].
    destruct (difficultyverify d (hashMessage kh hs)) as [[|]|e]; reduce_js;
      try discriminate.
    destruct (recoverPublicKey kh recover sig (hashMessage kh hs)) as [s|e]; reduce_js;
      [|discriminate].
    injection H as H. f_equal. unfold str_strict_eq in *.
    destruct pk as [| | | |s1| |]; try discriminate.
    apply String.eqb_eq in H. subst s1.
    destruct pk' as [| | | |s2| |]; try reflexivity.
    apply String.eqb_neq. congruence. }
  split; [|exact Hb].
  rewrite !verifyCommit_via_part002, !verifyObject_commit_obj. intros H.
  destruct (Index.checkdatastructure p ty) as [[|]|e]; reduce_js; try discriminate.
  now apply Hb.
Qed.

Lemma verifyCommit_publicKey_swap_witness :
  verifyCommit Toy.keccak_toy Toy.recover_toy
    (commit_obj (JStr Toy.now0) Toy.hello_post (JStr "mallory") (JStr "sk") (JStr "post")
                (JNum 3)) 1 = Ok false.
Proof.
  apply (proj1 (verifyCommit_publicKey_swap Toy.keccak_toy Toy.recover_toy (JStr Toy.now0)
    Toy.hello_post (JStr "sk") (JStr "mallory") (JStr "sk") (JStr "post") (JNum 3) 1
    ltac:(discriminate))).
  vm_compute; reflexivity.
Defined.

(** * The fields of a verified commit *)

Lemma existsb_eqb_In : forall k l, existsb (String.eqb k) l = true <-> In k l.
Proof.
  intros k l. rewrite existsb_exists. split.
  - intros (x & Hx & E). apply String.eqb_eq in E. now subst.
  - intros H. exists k. split; [exact H | apply String.eqb_refl].
Qed.

Lemma fold_obj_keys_In : forall l acc k,
  In k (fold_left Attach.obj_keys_step l acc) <-> In k acc \/ In k l.
Proof.
  induction l as [|a l IH]; intros acc k; simpl.
  - tauto.
  - rewrite IH. unfold Attach.obj_keys_step.
    destruct (existsb (String.eqb a) acc) eqn:E.
    + apply existsb_eqb_In in E. split; [tauto|].
      intros [H|[<-|H]]; auto.
    + rewrite in_app_iff. simpl. tauto.
Qed.

Lemma fold_obj_keys_NoDup : forall l acc, NoDup acc -> NoDup (fold_left Attach.obj_keys_step l acc).
Proof.
  induction l as [|a l IH]; intros acc H; simpl; [exact H|].
  apply IH. unfold Attach.obj_keys_step.
  destruct (existsb (String.eqb a) acc) eqn:E; [exact H|].
  apply Permutation_NoDup with (a :: acc); [apply Permutation_cons_append|].
  constructor; [|exact H].
  intros Hin. apply existsb_eqb_In in Hin. congruence.
Qed.

Lemma obj_keys_In : forall kvs k, In k (obj_keys kvs) <-> In k (map fst kvs).
Proof.
  intros kvs k. unfold obj_keys. fold Attach.obj_keys_step.
  rewrite fold_obj_keys_In. simpl. tauto.
Qed.

Lemma obj_keys_NoDup : forall kvs, NoDup (obj_keys kvs).
Proof.
  intros kvs. unfold obj_keys. fold Attach.obj_keys_step.
  apply fold_obj_keys_NoDup. constructor.
Qed.

Lemma all_own_true : forall v ks, all_own v ks = Ok true ->
  Forall (fun k => has_own v k = Ok true) ks.
Proof.
  intros v ks; induction ks as [|k ks IH]; simpl; intros H; [constructor|].
  destruct (has_own v k) as [[|]|e] eqn:E; simpl in H; try discriminate.
  constructor; [exact E | now apply IH].
Qed.

Lemma index_keys_length : forall n, List.length (index_keys n) = n.
Proof. intros n. unfold index_keys. now rewrite length_map, length_seq. Qed.

Lemma commit_fields_NoDup :
  NoDup ["commitAt"; "data"; "publicKey"; "signature"; "type"; "nonce"].
Proof.
  repeat (apply NoDup_cons; [simpl; intuition discriminate|]).
  apply NoDup_nil.
Qed.

(** X6: [verifyCommit] returns true only on an object whose own
    properties are exactly [commitAt], [data], [publicKey], [signature],
    [type] and [nonce]: six keys, each of them present. No string, array
    or other value passes. *)
Theorem verifyCommit_true_exact_fields : forall kh recover c d,
  verifyCommit kh recover c d = Ok true ->
  exists kvs, c = JObj kvs /\
    Permutation (obj_keys kvs) ["commitAt"; "data"; "publicKey"; "signature"; "type"; "nonce"].
Proof.
  intros kh recover c d H. rewrite verifyCommit_via_part002 in H.
  destruct (verifyObject c) as [[|]|e] eqn:Ev; reduce_js; try discriminate.
  clear H. unfold verifyObject in Ev.
  destruct (js_object_keys c) as [keys|e] eqn:Ek; reduce_js; [|discriminate].
  destruct (Nat.eqb_spec (List.length keys) 6) as [Hl|Hl]; reduce_js; [|discriminate].
  destruct (get c "data") as [x|e]; reduce_js; [|discriminate].
  destruct (get c "type") as [y|e]; reduce_js; [|discriminate].
  destruct (Index.checkdatastructure x y) as [[|]|e]; reduce_js; try discriminate.
  destruct c as [| | |z|s|l|kvs]; simpl in Ek; try discriminate;
    injection Ek as <-; try discriminate Hl.
  - rewrite index_keys_length in Hl. unfold all_own, has_own in Ev.
    rewrite Hl in Ev. discriminate Ev.
  - rewrite index_keys_length in Hl. unfold all_own, has_own in Ev.
    rewrite Hl in Ev. discriminate Ev.
  - exists kvs. split; [reflexivity|].
    apply Permutation_sym, NoDup_Permutation_bis.
    + exact commit_fields_NoDup.
    + rewrite Hl. simpl. lia.
    + apply all_own_true in Ev. intros k Hk. rewrite Forall_forall in Ev.
      specialize (Ev k Hk). unfold has_own in Ev.
      destruct (obj_lookup "hasOwnProperty" kvs); [discriminate|].
      injection Ev as Ev. now apply existsb_eqb_In.
Qed.

(** X7: [verifyObject] counts the keys first: [verifyCommit] throws a
    TypeError on [undefined] and [null], and returns false on any other
    value whose [Object.keys] does not have six entries, before looking at
    any field. *)
Theorem verifyCommit_key_count : forall kh recover c d,
  ((c = JUndef \/ c = JNull) -> verifyCommit kh recover c d = Throw TypeError) /\
  (forall keys, js_object_keys c = Ok keys -> List.length keys <> 6%nat ->
   verifyCommit kh recover c d = Ok false).
Proof.
  intros kh recover c d. split.
  - intros [-> | ->]; reflexivity.
  - intros keys Hk Hl. rewrite verifyCommit_via_part002. unfold verifyObject.
    rewrite Hk. reduce_js.
    destruct (Nat.eqb_spec (List.length keys) 6); [contradiction|]. reflexivity.
Qed.

Lemma verifyCommit_key_count_witness :
  verifyCommit Toy.keccak_toy Toy.recover_toy Toy.commit_with_extra 1 = Ok false /\
  verifyCommit Toy.keccak_toy Toy.recover_toy JNull 1 = Throw TypeError.
Proof.
  split.
  - apply (proj2 (verifyCommit_key_count Toy.keccak_toy Toy.recover_toy Toy.commit_with_extra 1)
             (obj_keys [("commitAt", JStr Toy.now0); ("data", Toy.hello_post);
                        ("publicKey", JStr "pk"); ("signature", JStr "sig");
                        ("type", JStr "post"); ("nonce", JNum 1); ("extra", JNum 0)])).
    + reflexivity.
    + vm_compute. discriminate.
  - apply (proj1 (verifyCommit_key_count Toy.keccak_toy Toy.recover_toy JNull 1)).
    right; reflexivity.
Defined.

(** * What [checkdatastructure] computes on posts *)

Lemma attachment_cb_forEach : forall l g x, Forall Attach.plain_object l ->
  forEach_list Index.attachment_cb (g, x) l =
  Ok (g || existsb (Attach.obj_has "type") l,
      xorb x (Nat.odd (Attach.count_key "cid" l + Attach.count_key "url" l)))%bool.
Proof.
  induction l as [|a l IH]; intros g x Hl.
  - simpl. now rewrite orb_false_r, xorb_false_r.
  - inversion Hl as [|? ? Ha Hr]; subst.
    destruct Ha as (kvs & -> & Hh).
    cbn [forEach_list]. unfold Index.attachment_cb, has_own. rewrite Hh. cbn [bind].
    rewrite IH by exact Hr. cbn [existsb Attach.count_key].
    change (Attach.obj_has ?k (JObj kvs)) with (existsb (String.eqb k) (obj_keys kvs)).
    rewrite !Nat.odd_add.
    destruct (existsb (String.eqb "type") (obj_keys kvs)),
             (existsb (String.eqb "cid") (obj_keys kvs)),
             (existsb (String.eqb "url") (obj_keys kvs));
      destruct g, x, (Nat.odd (Attach.count_key "cid" l)),
                     (Nat.odd (Attach.count_key "url" l)); reflexivity.
Qed.

(** X8: On a post whose hashtags are an array and whose attachments are an
    array of plain objects, [checkdatastructure] returns exactly: true if
    there are no attachments; otherwise true iff some attachment has a
    [type] property and the attachments carry an odd number of [cid] and
    [url] properties in total. The type tag, the hashtags and the values of
    the attachment properties play no part. *)
Theorem checkdatastructure_post_attachments : forall content parent tags l type,
  Forall Attach.plain_object l ->
  Index.checkdatastructure (Index.postTemplate content (JArr tags) (JArr l) parent) type =
  Ok (is_nil l ||
      existsb (Attach.obj_has "type") l &&
      Nat.odd (Attach.count_key "cid" l + Attach.count_key "url" l))%bool.
Proof.
  intros content parent tags l type Hl.
  unfold Index.checkdatastructure. simpl js_truthy. cbv iota.
  unfold Index.post_branch. simpl.
  destruct (0 <? Z.of_nat (List.length tags)); simpl;
    [rewrite forEach_hashtags_ok; simpl|].
  all: destruct l as [|a l']; [reflexivity|].
  all: simpl js_gt0; cbv zeta; unfold js_forEach; rewrite attachment_cb_forEach by exact Hl;
    simpl; destruct (Attach.obj_has "type" a || existsb (Attach.obj_has "type") l')%bool,
                    (Nat.odd _); reflexivity.
Qed.

Lemma verifyCommit_true_exact_fields_witness :
  exists kvs,
    commit_obj (JStr Toy.now0) Toy.hello_post (JStr "sk") (JStr "sk") (JStr "post") (JNum 3)
    = JObj kvs /\
    Permutation (obj_keys kvs) ["commitAt"; "data"; "publicKey"; "signature"; "type"; "nonce"].
Proof.
  apply (verifyCommit_true_exact_fields Toy.keccak_toy Toy.recover_toy _ 1).
  vm_compute; reflexivity.
Defined.

Lemma checkdatastructure_post_attachments_witness :
  Index.checkdatastructure (Toy.post_with [Toy.att_cid_url; Toy.att_gif]) (JStr "meta") =
  Ok true.
Proof.
  unfold Toy.post_with.
  rewrite (checkdatastructure_post_attachments (JStr "x") JNull []
             [Toy.att_cid_url; Toy.att_gif] (JStr "meta")).
  - vm_compute. reflexivity.
  - repeat constructor; eexists; split; reflexivity.
Defined.

(** X9: Non-array hashtags and attachments: when the hashtags of a post
    are a string, [checkdatastructure] accepts the empty string and throws
    a TypeError on any other string ([forEach] is not a method of
    strings); attachments given as an object without a [length] property
    are not inspected at all. *)
Theorem checkdatastructure_non_array_fields : forall content parent s tags kvs type,
  Index.checkdatastructure (Index.postTemplate content (JStr s) (JArr []) parent) type =
  (if String.eqb s "" then Ok true else Throw TypeError) /\
  (obj_lookup "length" kvs = None ->
   Index.checkdatastructure (Index.postTemplate content (JArr tags) (JObj kvs) parent) type =
   Ok true).
Proof.
  intros content parent s tags kvs type. split.
  - destruct s; reflexivity.
  - intros Hl. unfold Index.checkdatastructure. simpl js_truthy. cbv iota.
    unfold Index.post_branch. simpl.
    destruct (0 <? Z.of_nat (List.length tags)); simpl;
      [rewrite forEach_hashtags_ok; simpl|]; rewrite Hl; reflexivity.
Qed.

Lemma checkdatastructure_non_array_fields_witness :
  Index.checkdatastructure
    (Index.postTemplate (JStr "x") (JArr [JStr "news"]) (JObj [("0", JNum 5)]) JNull)
    (JStr "post") = Ok true.
Proof.
  apply (proj2 (checkdatastructure_non_array_fields (JStr "x") JNull "" [JStr "news"]
                  [("0", JNum 5)] (JStr "post"))).
  reflexivity.
Defined.

(** * Private messages *)

(** X10: Round trip of [encodeMessage] and [decodeMessage]: when the
    primitives agree (the signature recovers to the signer's public key,
    decryption with the receiver's private key undoes encryption with its
    public key through the string form, and [JSON.parse] reads back what
    [JSON.stringify] wrote), decoding the encoded message yields the
    sender's public key, the receiver's public key and the message. *)
Theorem decodeMessage_encodeMessage :
  forall kh kv sign recover pub encrypt cstringify cparse decrypt jparse
         message sk rsk spk rpk sig pt enc es enc',
  (forall sk m sig pk, sign sk m = Ok sig -> pub sk = Ok pk -> recover (JStr sig) m = Ok pk) ->
  pub sk = Ok spk -> pub rsk = Ok rpk ->
  sign sk (hashMessage kh message) = Ok sig ->
  Messages.json_stringify (Messages.signed_payload message sig) = Some pt ->
  encrypt rpk pt = Ok enc -> cstringify enc = Ok es ->
  cparse es = Ok enc' -> decrypt rsk enc' = Ok pt ->
  jparse pt = Ok (Messages.signed_payload message sig) ->
  Messages.encodeMessage kh sign encrypt cstringify message sk rpk
  = Ok (JObj [("receiver", JStr rpk); ("message", JStr es)]) /\
  Messages.decodeMessage kh kv recover pub cparse decrypt jparse es rsk
  = Ok (JObj [("sender", JStr spk); ("receiver", JStr rpk); ("message", JStr message)]).
Proof.
  intros kh kv sign recover pub encrypt cstringify cparse decrypt jparse
         message sk rsk spk rpk sig pt enc es enc'
         Hlaw Hps Hpr Hs Hj He Hcs Hcp Hd Hjp.
  split.
  - unfold Messages.encodeMessage, signMessage.
    rewrite Hs. reduce_js. rewrite Hj. reduce_js. rewrite He. reduce_js.
    rewrite Hcs. reflexivity.
  - unfold Messages.decodeMessage.
    rewrite Hcp. reduce_js. rewrite Hd. reduce_js. rewrite Hjp. reduce_js.
    unfold Messages.hashMessage_value, Messages.signed_payload. simpl get.
    reduce_js. rewrite (Hlaw _ _ _ _ Hs Hps). reduce_js. rewrite Hpr. reflexivity.
Qed.

Lemma decodeMessage_encodeMessage_witness :
  Messages.encodeMessage Toy.keccak_toy Toy.sign_toy Toy.encrypt_toy Toy.cipher_stringify_toy
    "hi" "alice" "bob"
  = Ok (JObj [("receiver", JStr "bob"); ("message", JStr Toy.alice_text)]) /\
  Messages.decodeMessage Toy.keccak_toy Toy.keccak_value_toy Toy.recover_toy Toy.pub_toy
    Toy.cipher_parse_toy Toy.decrypt_toy Toy.json_parse_toy Toy.alice_text "bob"
  = Ok (JObj [("sender", JStr "alice"); ("receiver", JStr "bob"); ("message", JStr "hi")]).
Proof.
  apply (decodeMessage_encodeMessage Toy.keccak_toy Toy.keccak_value_toy Toy.sign_toy
           Toy.recover_toy Toy.pub_toy Toy.encrypt_toy Toy.cipher_stringify_toy
           Toy.cipher_parse_toy Toy.decrypt_toy Toy.json_parse_toy
           "hi" "alice" "bob" "alice" "bob" "alice" Toy.alice_text (JStr Toy.alice_text)
           Toy.alice_text (JStr Toy.alice_text) toy_sign_recover_law);
    vm_compute; reflexivity.
Defined.

(** * The commit engine of part_003 *)


Section Part003Unfold.
Local Opaque Part003.checkDataStructure hash_string Part003Commit.difficultyverify
  Part003Commit.hashMessage Part003Commit.recoverPublicKey.


End Part003Unfold.



Lemma all_own_In : forall kvs ks,
  obj_lookup "hasOwnProperty" kvs = None ->
  Forall (fun k => In k (map fst kvs)) ks ->
  all_own (JObj kvs) ks = Ok true.
Proof.
  intros kvs ks Hh Hks. induction Hks as [|k ks Hk _ IH]; [reflexivity|].
  cbn [all_own]. unfold has_own. rewrite Hh.
  replace (existsb (String.eqb k) (obj_keys kvs)) with true.
  - exact IH.
  - symmetry. apply existsb_eqb_In, obj_keys_In, Hk.
Qed.

(** X12: Properties beyond the six commit fields: the [verifyCommit] of
    part_003 ignores them (it only checks that the six are present), while
    the one of src/index.js returns false as soon as one of them has a new
    name. The added properties must not shadow [hasOwnProperty]. *)
Theorem verifyCommit_extra_fields : forall kh sha recover recover' ca p pk sig ty n extra d,
  obj_lookup "hasOwnProperty" extra = None ->
  Part003Commit.verifyCommit sha recover'
    (Attach.with_fields (commit_obj ca p pk sig ty n) extra) d
  = Part003Commit.verifyCommit sha recover' (commit_obj ca p pk sig ty n) d /\
  (forall k, In k (map fst extra) ->
   ~ In k ["commitAt"; "data"; "publicKey"; "signature"; "type"; "nonce"] ->
   verifyCommit kh recover (Attach.with_fields (commit_obj ca p pk sig ty n) extra) d
   = Ok false).
Proof.
  intros kh sha recover recover' ca p pk sig ty n extra d Hh. split.
  - unfold Part003Commit.verifyCommit, Part003Commit.verifyObject.
    cbn [Attach.with_fields commit_obj app].
    rewrite !all_own_In; try reflexivity;
      first [simpl; exact Hh | repeat constructor; simpl; tauto].
  - intros k Hk Hnew. rewrite verifyCommit_via_part002. unfold verifyObject.
    cbn [Attach.with_fields commit_obj app js_object_keys]. reduce_js.
    set (kvs := (("commitAt", ca) :: ("data", p) :: ("publicKey", pk) :: ("signature", sig)
                 :: ("type", ty) :: ("nonce", n) :: extra)).
    assert (Hle : (7 <= List.length (obj_keys kvs))%nat).
    { change 7%nat with (List.length (k :: ["commitAt"; "data"; "publicKey"; "signature";
                                           "type"; "nonce"])).
      apply NoDup_incl_length.
      - constructor; [exact Hnew | exact commit_fields_NoDup].
      - intros x Hx. apply obj_keys_In. unfold kvs. simpl map.
        destruct Hx as [<-|Hx]; [simpl; tauto|].
        simpl in Hx |- *. tauto. }
    destruct (Nat.eqb_spec (List.length (obj_keys kvs)) 6); [lia|]. reflexivity.
Qed.

Lemma verifyCommit_extra_fields_witness :
  Part003Commit.verifyCommit Toy.keccak_toy Toy.recover_toy Toy.commit_with_extra 1 =
  Part003Commit.verifyCommit Toy.keccak_toy Toy.recover_toy
    (commit_obj (JStr Toy.now0) Toy.hello_post (JStr "pk") (JStr "sig") (JStr "post") (JNum 1))
    1 /\
  verifyCommit Toy.keccak_toy Toy.recover_toy Toy.commit_with_extra 1 = Ok false.
Proof.
  destruct (verifyCommit_extra_fields Toy.keccak_toy Toy.keccak_toy Toy.recover_toy
              Toy.recover_toy (JStr Toy.now0) Toy.hello_post (JStr "pk") (JStr "sig")
              (JStr "post") (JNum 1) [("extra", JNum 0)] 1 ltac:(reflexivity)) as [H1 H2].
  split.
  - exact H1.
  - apply (H2 "extra"); simpl; [tauto | intuition discriminate].
Defined.

Lemma part003_every_tags : forall tags,
  every_list Part003.hashtag_ok tags = Ok (forallb Attach.valid_tag tags).
Proof.
  induction tags as [|t tags IH]; [reflexivity|].
  cbn [every_list forallb]. destruct t; try reflexivity.
  unfold Part003.hashtag_ok, Attach.valid_tag. cbn [bind].
  destruct (Nat.leb (String.length s) 32 && alnum_only s)%bool; [exact IH | reflexivity].
Qed.

Lemma part003_every_attachments : forall l, Forall Attach.plain_object l ->
  every_list Part003.attachment_ok l = Ok (forallb Attach.valid_attachment l).
Proof.
  induction l as [|a l IH]; intros Hl; [reflexivity|].
  inversion Hl as [|? ? Ha Hr]; subst. destruct Ha as (kvs & -> & Hh).
  cbn [every_list forallb]. rewrite IH by exact Hr.
  unfold Part003.attachment_ok.
  change (Attach.valid_attachment (JObj kvs)) with
    (existsb (String.eqb "type") (obj_keys kvs) &&
     match obj_lookup "type" kvs with
     | Some (JStr t) => String.eqb "image" t || String.eqb "video" t || String.eqb "others" t
     | _ => false
     end &&
     (existsb (String.eqb "cid") (obj_keys kvs) || existsb (String.eqb "url") (obj_keys kvs)))%bool.
  unfold has_own. rewrite Hh. cbn [bind negb].
  destruct (existsb (String.eqb "type") (obj_keys kvs)); cbn [bind negb andb];
    [|reflexivity].
  unfold get. destruct (obj_lookup "type" kvs) as [[| | | |t| |]|]; cbn [bind negb str_strict_eq];
    try reflexivity.
  destruct (String.eqb "image" t || String.eqb "video" t || String.eqb "others" t)%bool;
    cbn [bind negb andb]; [|reflexivity].
  destruct (existsb (String.eqb "cid") (obj_keys kvs)), (existsb (String.eqb "url") (obj_keys kvs));
    reflexivity.
Qed.

(** X13: What the [checkDataStructure] of part_003 accepts on the templates
    (its [postTemplate] and [metaTemplate] are those of src/index.js): a
    post, with the type tag "post", is accepted iff every hashtag is a
    string of at most 32 ASCII letters and digits and every attachment has
    a [type] of "image", "video" or "others" and a [cid] or a [url]; a
    meta payload, with the tag "meta", iff every hashtag is. *)
Theorem part003_checkDataStructure_templates :
  forall content parent tags l name about image website followed tags' bookmarks,
  Forall Attach.plain_object l ->
  Part003.checkDataStructure (Index.postTemplate content (JArr tags) (JArr l) parent)
    (JStr "post")
  = Ok (forallb Attach.valid_tag tags && forallb Attach.valid_attachment l)%bool /\
  Part003.checkDataStructure
    (Index.metaTemplate name about image website followed (JArr tags') bookmarks) (JStr "meta")
  = Ok (forallb Attach.valid_tag tags').
Proof.
  intros content parent tags l name about image website followed tags' bookmarks Hl. split.
  - unfold Part003.checkDataStructure, Index.postTemplate.
    cbn -[every_list Part003.hashtag_ok Part003.attachment_ok].
    rewrite part003_every_tags. cbn [bind].
    destruct (forallb Attach.valid_tag tags); cbn [bind negb andb]; [|reflexivity].
    cbn -[every_list Part003.attachment_ok]. now apply part003_every_attachments.
  - unfold Part003.checkDataStructure, Index.metaTemplate.
    cbn -[every_list Part003.hashtag_ok]. apply part003_every_tags.
Qed.

Lemma part003_checkDataStructure_templates_witness :
  Part003.checkDataStructure (Toy.post_with [Toy.att_cid_url; Toy.att_image]) (JStr "post")
  = Ok true.
Proof.
  unfold Toy.post_with.
  rewrite (proj1 (part003_checkDataStructure_templates (JStr "x") JNull []
                    [Toy.att_cid_url; Toy.att_image] JUndef JUndef JUndef JUndef JUndef []
                    JUndef ltac:(repeat constructor; eexists; split; reflexivity))).
  vm_compute. reflexivity.
Defined.

(** X14: A payload object with an own [toString] property makes the
    template literal [`${data}${commitAt}${nonce}`] throw: [createCommit]
    (both versions) fails with "Failed to create commit." in its first
    round, and no commit carrying such a payload passes [verifyCommit]. *)
Theorem toString_payload : forall kh sign pub sha sign' pub' recover kvs v,
  obj_lookup "toString" kvs = Some v ->
  (forall fuel sk ty d now,
     createCommit kh sign pub (S fuel) sk (JObj kvs) ty d now
     = Some (Throw (Error "Failed to create commit.")) /\
     Part003Commit.createCommit sha sign' pub' (S fuel) sk (JObj kvs) ty d now
     = Some (Throw (Error "Failed to create commit."))) /\
  (forall c d, get c "data" = Ok (JObj kvs) ->
     Part002.verifyCommit kh recover c d = Ok false /\ verifyCommit kh recover c d <> Ok true).
Proof.
  intros kh sign pub sha sign' pub' recover kvs v Hv.
  assert (Hs : forall ca n, hash_string (JObj kvs) ca n = Throw TypeError).
  { intros ca n. unfold hash_string. cbn [to_str]. rewrite Hv. reflexivity. }
  split.
  - intros fuel sk ty d now. split.
    + unfold createCommit. cbn [mine]. unfold nonce_attempt. rewrite Hs. reflexivity.
    + unfold Part003Commit.createCommit. cbn [Part003Commit.mine].
      unfold Part003Commit.nonce_attempt. rewrite Hs. reflexivity.
  - intros c d Hd.
    assert (H2 : Part002.verifyCommit kh recover c d = Ok false).
    { unfold Part002.verifyCommit. rewrite Hd. reduce_js.
      destruct (get c "commitAt") as [y|e]; reduce_js; [|reflexivity].
      destruct (get c "nonce") as [z|e]; reduce_js; [|reflexivity].
      rewrite Hs. reflexivity. }
    split; [exact H2|].
    rewrite verifyCommit_via_part002.
    destruct (verifyObject c) as [[|]|e]; reduce_js; try discriminate.
    rewrite H2. discriminate.
Qed.

Lemma toString_payload_witness :
  createCommit Toy.keccak_toy Toy.sign_toy Toy.pub_toy 10 "sk"
    (JObj [("toString", JStr "x")]) (JStr "post") 1 Toy.now0
  = Some (Throw (Error "Failed to create commit.")).
Proof.
  apply (proj1 (proj1 (toString_payload Toy.keccak_toy Toy.sign_toy Toy.pub_toy Toy.keccak_toy
                         Toy.sign_toy Toy.pub_toy Toy.recover_toy [("toString", JStr "x")]
                         (JStr "x") eq_refl) 9%nat "sk" (JStr "post") 1 Toy.now0)).
Defined.
